(** * Highlight model and highlight manager of xterm.js (src/HighlightModel.ts)

    A shallow embedding of the two classes of the source file:
    [HighlightModel] (raw end points, normalisation, trimming) and
    [HighlightManager] (line ranges, column/string-index reconciliation,
    word detection, text extraction).

    JavaScript numbers are modelled by [Z]: every number the code handles
    here is a column, a row, a length or a string index.  [a % b] is
    [Z.rem a b] and [Math.floor(a / b)] is [a / b] (floor division); both
    agree with JavaScript on integers whenever [b <> 0].  A coordinate
    pair [[x, y]] is a pair [(x, y)]: first the column, then the row.
    [null] and [undefined] are [None]. *)

From Stdlib Require Import ZArith List Bool Lia String Ascii.
Import ListNotations.
Open Scope Z_scope.

(** ** Outcomes of JavaScript code

    Reading a property of [undefined] raises a [TypeError]; loops and the
    row recursion of the word detection are run on fuel. *)

Inductive Outcome (A : Type) : Type :=
| Return (a : A)
| TypeError
| OutOfFuel.

Arguments Return {A} a.
Arguments TypeError {A}.
Arguments OutOfFuel {A}.

Definition bind {A B : Type} (m : Outcome A) (k : A -> Outcome B) : Outcome B :=
  match m with
  | Return a => k a
  | TypeError => TypeError
  | OutOfFuel => OutOfFuel
  end.

Notation "x <- m ;; k" := (bind m (fun x => k))
  (at level 61, m at next level, right associativity).
Notation "' p <- m ;; k" := (bind m (fun x => let p := x in k))
  (at level 61, p pattern, m at next level, right associativity).

(** [defined o] is the access [o[...]] or [o.prop] on a value that may be
    [undefined]. *)
Definition defined {A : Type} (o : option A) : Outcome A :=
  match o with
  | Some a => Return a
  | None => TypeError
  end.

(** ** JavaScript strings

    A string is its sequence of UTF-16 code units, so that [length] counts
    what [String.prototype.length] counts. *)

Module JSString.

Definition t : Type := list Z.

(** A literal of Latin-1 characters. *)
Definition lit (s : string) : t :=
  List.map (fun a => Z.of_N (N_of_ascii a)) (list_ascii_of_string s).

Definition length (s : t) : Z := Z.of_nat (List.length s).

Fixpoint eqb (a b : t) : bool :=
  match a, b with
  | [], [] => true
  | x :: a', y :: b' => (x =? y) && eqb a' b'
  | _, _ => false
  end.

(** [s.charAt(i)]: the empty string outside the string. *)
Definition charAt (s : t) (i : Z) : t :=
  if i <? 0 then []
  else match nth_error s (Z.to_nat i) with
       | Some c => [c]
       | None => []
       end.

(** [s.slice(from, to)]: negative arguments count from the end. *)
Definition slice (s : t) (from to : Z) : t :=
  let len := length s in
  let from' := if from <? 0 then Z.max (len + from) 0 else Z.min from len in
  let to' := if to <? 0 then Z.max (len + to) 0 else Z.min to len in
  firstn (Z.to_nat (Z.max (to' - from') 0)) (skipn (Z.to_nat from') s).

(** White space and line terminators of ECMAScript, as [trim] strips
    them. *)
Definition isWhiteSpace (c : Z) : bool :=
  (c =? 9) || (c =? 10) || (c =? 11) || (c =? 12) || (c =? 13)
  || (c =? 32) || (c =? 160) || (c =? 5760)
  || ((8192 <=? c) && (c <=? 8202))
  || (c =? 8232) || (c =? 8233) || (c =? 8239) || (c =? 8287)
  || (c =? 12288) || (c =? 65279).

Fixpoint trimStart (s : t) : t :=
  match s with
  | c :: s' => if isWhiteSpace c then trimStart s' else s
  | [] => []
  end.

(** [s.trim()] *)
Definition trim (s : t) : t := rev (trimStart (rev (trimStart s))).

Fixpoint startsWith (s search : t) : bool :=
  match search, s with
  | [], _ => true
  | x :: search', y :: s' => (x =? y) && startsWith s' search'
  | _ :: _, [] => false
  end.

Fixpoint indexOfFrom (s search : t) (k : Z) : Z :=
  if startsWith s search then k
  else match s with
       | [] => -1
       | _ :: s' => indexOfFrom s' search (k + 1)
       end.

(** [s.indexOf(search)]: the first position where [search] occurs as a
    substring, or [-1]. *)
Definition indexOf (s search : t) : Z := indexOfFrom s search 0.

(** [s.replace(new RegExp(c, 'g'), d)] for single code units [c], [d]. *)
Definition replaceAll (c d : Z) (s : t) : t :=
  List.map (fun x => if x =? c then d else x) s.

(** [lines.join(sep)] *)
Fixpoint join (sep : t) (l : list t) : t :=
  match l with
  | [] => []
  | [s] => s
  | s :: l' => s ++ sep ++ join sep l'
  end.

End JSString.

(** ** The buffer

    The types of the buffer are declared in ./Types and ./Buffer, which
    are not part of the source at hand. *)

Definition Coords : Type := (Z * Z)%type.

(** Modelled from the spec: the tuple type [CharData] and its index
    constants are missing.  The spec's cell is "a display width (0, 1, or
    2), a string fragment" and "a scalar code point".  The projection
    named after an index constant reads that component:
    [c[CHAR_DATA_WIDTH_INDEX]] is [CHAR_DATA_WIDTH_INDEX c]. *)
Record CharData := {
  CHAR_DATA_CHAR_INDEX : JSString.t;
  CHAR_DATA_WIDTH_INDEX : Z;
  CHAR_DATA_CODE_INDEX : Z
}.

Module BufferLine.

(** Modelled from the spec: the interface [IBufferLine] is missing.  The
    spec's row is an "ordered sequence of Cells" with "a boolean wrapped
    flag". *)
Record t := {
  cells : list CharData;
  isWrapped : bool
}.

(** [bufferLine.length] *)
Definition length (l : t) : Z := Z.of_nat (List.length (cells l)).

(** Modelled from the spec: [bufferLine.get(i)] belongs to [IBufferLine],
    which is missing.  Inside the row it gives the cell of column [i],
    the spec's buffer exposing its content as "grid-column-addressed
    cells".  The spec does not say what a row answers at a column outside
    it: here it is [undefined], the answer of a row kept as a plain
    array.  Where a property depends on that answer the lookup is a
    parameter, see [WithLookup]. *)
Definition get (l : t) (i : Z) : option CharData :=
  if i <? 0 then None else nth_error (cells l) (Z.to_nat i).

End BufferLine.

(** Modelled from the spec: the interfaces [IBuffer] and [ITerminal] are
    missing; the records keep the members the code reads, the rows of
    the active buffer, its base row and the viewport columns and rows. *)
Record IBuffer := {
  lines : list BufferLine.t;
  ybase : Z
}.

Record ITerminal := {
  cols : Z;
  rows : Z;
  buffer : IBuffer
}.

(** [buffer.lines.length] *)
Definition lines_length (b : IBuffer) : Z := Z.of_nat (List.length (lines b)).

(** Modelled from the spec: [buffer.lines.get(i)] belongs to the circular
    list of ./common, which is not in the source at hand.  The spec gives
    "row lookup by absolute index -> Row or absent". *)
Definition lines_get (b : IBuffer) (i : Z) : option BufferLine.t :=
  if i <? 0 then None else nth_error (lines b) (Z.to_nat i).

(** The rendered form of a run of cells: the fragments in column order,
    "omitting width-0 continuation cells". *)
Definition rendered (cs : list CharData) : JSString.t :=
  List.concat (List.map CHAR_DATA_CHAR_INDEX
              (List.filter (fun c => negb (CHAR_DATA_WIDTH_INDEX c =? 0)) cs)).

(** Modelled from the spec: [Buffer.translateBufferLineToString] is in
    ./Buffer, which is not in the source at hand.  The spec gives the
    "rendered string for a row with an optional column sub-range", the
    rendered form being the row flattened and "omitting width-0
    continuation cells"; an absent row renders as the empty string.  The
    spec gives the flag [trimRight] no meaning: it is carried and not
    used, and every theorem below that reads a rendered string is about a
    call with the flag unset. *)
Definition translateBufferLineToString
    (b : IBuffer) (lineIndex : Z) (trimRight : bool)
    (startCol : Z) (endCol : option Z) : JSString.t :=
  match lines_get b lineIndex with
  | None => []
  | Some line =>
      let endCol' := match endCol with
                     | Some e => e
                     | None => BufferLine.length line
                     end in
      rendered (firstn (Z.to_nat (endCol' - Z.max startCol 0))
                       (skipn (Z.to_nat startCol) (BufferLine.cells line)))
  end.

Module HighlightModel.

Record t := {
  isHighlightAllActive : bool;
  highlightStart : option Coords;
  highlightStartLength : Z;
  highlightEnd : option Coords
}.

(** [clearHighlight()] *)
Definition clearHighlight (m : t) : t :=
  {| isHighlightAllActive := false;
     highlightStart := None;
     highlightStartLength := 0;
     highlightEnd := None |}.

(** [areHighlightValuesReversed()] *)
Definition areHighlightValuesReversed (m : t) : bool :=
  match highlightStart m, highlightEnd m with
  | Some start, Some end_ =>
      (snd start >? snd end_)
      || ((snd start =? snd end_) && (fst start >? fst end_))
  | _, _ => false
  end.

(** [get finalHighlightStart()] *)
Definition finalHighlightStart (m : t) : option Coords :=
  if isHighlightAllActive m then Some (0, 0)
  else
    match highlightEnd m, highlightStart m with
    | Some end_, Some start =>
        if areHighlightValuesReversed m then Some end_ else Some start
    | _, _ => highlightStart m
    end.

(** [get finalHighlightEnd()] *)
Definition finalHighlightEnd (term : ITerminal) (m : t) : option Coords :=
  if isHighlightAllActive m then Some (cols term, ybase (buffer term) + rows term - 1)
  else
    match highlightStart m with
    | None => None
    | Some start =>
        if match highlightEnd m with None => true | Some _ => false end
           || areHighlightValuesReversed m
        then
          let startPlusLength := fst start + highlightStartLength m in
          if startPlusLength >? cols term
          then Some (Z.rem startPlusLength (cols term),
                     snd start + startPlusLength / cols term)
          else Some (startPlusLength, snd start)
        else
          match highlightEnd m with
          | None => None
          | Some end_ =>
              if negb (highlightStartLength m =? 0)
                 && (snd end_ =? snd start)
              then Some (Z.max (fst start + highlightStartLength m) (fst end_),
                         snd end_)
              else Some end_
          end
    end.

(** [onTrim(amount)]: the new model and the returned flag.  The two end
    points are distinct arrays in every assignment of the source, so
    each is updated on its own. *)
Definition onTrim (amount : Z) (m : t) : t * bool :=
  let start1 := option_map (fun c : Coords => (fst c, snd c - amount))
                           (highlightStart m) in
  let end1 := option_map (fun c : Coords => (fst c, snd c - amount))
                         (highlightEnd m) in
  let m1 := {| isHighlightAllActive := isHighlightAllActive m;
               highlightStart := start1;
               highlightStartLength := highlightStartLength m;
               highlightEnd := end1 |} in
  if match end1 with Some e => snd e <? 0 | None => false end
  then (clearHighlight m1, true)
  else
    let start2 :=
      match start1 with
      | Some s => if snd s <? 0 then Some (fst s, 0) else Some s
      | None => None
      end in
    ({| isHighlightAllActive := isHighlightAllActive m;
        highlightStart := start2;
        highlightStartLength := highlightStartLength m;
        highlightEnd := end1 |}, false).

End HighlightModel.

(** ** Loops

    [while fuel cond body s] is [while (cond) { body }] from state [s]:
    the condition is tested before fuel is looked at, so fuel [n] allows
    [n] runs of the body.  [forRange lo hi body s] is
    [for (let i = lo; i <= hi; i++) { body }] with [hi] fixed. *)

Fixpoint while {S : Type} (fuel : nat) (cond : S -> Outcome bool)
    (body : S -> Outcome S) (s : S) : Outcome S :=
  c <- cond s ;;
  if c : bool then
    match fuel with
    | O => OutOfFuel
    | Datatypes.S fuel' => s' <- body s ;; while fuel' cond body s'
    end
  else Return s.

Fixpoint forFrom {S : Type} (n : nat) (i : Z) (body : Z -> S -> Outcome S)
    (s : S) : Outcome S :=
  match n with
  | O => Return s
  | Datatypes.S n' => s' <- body i s ;; forFrom n' (i + 1) body s'
  end.

Definition forRange {S : Type} (lo hi : Z) (body : Z -> S -> Outcome S)
    (s : S) : Outcome S :=
  forFrom (Z.to_nat (hi - lo + 1)) lo body s.

(** ** HighlightManager *)

Inductive HighlightMode : Type := NORMAL | WORD | LINE | COLUMN.

Module IWordPosition.
Record t := { start : Z; length : Z }.
End IWordPosition.

Module HighlightManager.

(** The fields the selection logic reads and writes; the redraw queue
    and the listeners are outside the embedding, so [refresh()] and
    [emit(...)] leave no trace here. *)
Record t := {
  _model : HighlightModel.t;
  _activeHighlightMode : HighlightMode
}.

(** The separators: space, round, square and curly brackets, apostrophe
    and double quote (code unit 34). *)
Definition WORD_SEPARATORS : JSString.t := JSString.lit " ()[]{}'" ++ [34].

Definition NON_BREAKING_SPACE_CHAR : Z := 160.

Definition isCOLUMN (m : HighlightMode) : bool :=
  match m with COLUMN => true | _ => false end.

(** [get hasHighlight()] *)
Definition hasHighlight (term : ITerminal) (hm : t) : bool :=
  match HighlightModel.finalHighlightStart (_model hm),
        HighlightModel.finalHighlightEnd term (_model hm) with
  | Some start, Some end_ =>
      negb (fst start =? fst end_) || negb (snd start =? snd end_)
  | _, _ => false
  end.

(** [result[result.length - 1] += lineText]; [result] holds the first
    row's text whenever the code gets here. *)
Fixpoint appendToLast (result : list JSString.t) (lineText : JSString.t)
    : list JSString.t :=
  match result with
  | [] => []
  | [s] => [s ++ lineText]
  | s :: result' => s :: appendToLast result' lineText
  end.

(** The wrapped-or-new-line step shared by the middle rows and the
    final row: [bufferLine.isWrapped] raises on an absent row. *)
Definition pushRow (term : ITerminal) (i : Z) (lineText : JSString.t)
    (result : list JSString.t) : Outcome (list JSString.t) :=
  bufferLine <- defined (lines_get (buffer term) i) ;;
  if BufferLine.isWrapped bufferLine
  then Return (appendToLast result lineText)
  else Return (result ++ [lineText]).

(** [get highlightText()]; [isMSWindows] is [Browser.isMSWindows]. *)
Definition highlightText (isMSWindows : bool) (term : ITerminal) (hm : t)
    : Outcome JSString.t :=
  match HighlightModel.finalHighlightStart (_model hm),
        HighlightModel.finalHighlightEnd term (_model hm) with
  | Some start, Some end_ =>
      let format (result : list JSString.t) : JSString.t :=
        JSString.join
          (if isMSWindows then [13; 10] else [10])
          (List.map (JSString.replaceAll NON_BREAKING_SPACE_CHAR 32) result) in
      if isCOLUMN (_activeHighlightMode hm) then
        if fst start =? fst end_ then Return []
        else
          result <- forRange (snd start) (snd end_)
                      (fun i result =>
                         let lineText :=
                           translateBufferLineToString (buffer term) i true
                             (fst start) (Some (fst end_)) in
                         Return (result ++ [lineText]))
                      [] ;;
          Return (format result)
      else
        let startRowEndCol :=
          if snd start =? snd end_ then Some (fst end_) else None in
        let result :=
          [translateBufferLineToString (buffer term) (snd start) true
             (fst start) startRowEndCol] in
        result <- forRange (snd start + 1) (snd end_ - 1)
                    (fun i result =>
                       pushRow term i
                         (translateBufferLineToString (buffer term) i true
                            0 None)
                         result)
                    result ;;
        result <- (if negb (snd start =? snd end_)
                   then pushRow term (snd end_)
                          (translateBufferLineToString (buffer term)
                             (snd end_) true 0 (Some (fst end_)))
                          result
                   else Return result) ;;
        Return (format result)
  | _, _ => Return []
  end.

Definition withModel (m : HighlightModel.t) (hm : t) : t :=
  {| _model := m; _activeHighlightMode := _activeHighlightMode hm |}.

(** [clearHighlight()] *)
Definition clearHighlight (hm : t) : t :=
  withModel (HighlightModel.clearHighlight (_model hm)) hm.

(** [highlightAll()] *)
Definition highlightAll (hm : t) : t :=
  withModel
    {| HighlightModel.isHighlightAllActive := true;
       HighlightModel.highlightStart :=
         HighlightModel.highlightStart (_model hm);
       HighlightModel.highlightStartLength :=
         HighlightModel.highlightStartLength (_model hm);
       HighlightModel.highlightEnd :=
         HighlightModel.highlightEnd (_model hm) |}
    hm.

(** [highlightLines(start, end)] *)
Definition highlightLines (term : ITerminal) (start end_ : Z) (hm : t) : t :=
  let m := HighlightModel.clearHighlight (_model hm) in
  let start := Z.max start 0 in
  let end_ := Z.min end_ (lines_length (buffer term) - 1) in
  withModel
    {| HighlightModel.isHighlightAllActive :=
         HighlightModel.isHighlightAllActive m;
       HighlightModel.highlightStart := Some (0, start);
       HighlightModel.highlightStartLength :=
         HighlightModel.highlightStartLength m;
       HighlightModel.highlightEnd := Some (cols term, end_) |}
    hm.

(** [_onTrim(amount)] *)
Definition _onTrim (amount : Z) (hm : t) : t :=
  withModel (fst (HighlightModel.onTrim amount (_model hm))) hm.

(** [setHighlight(col, row, length)] *)
Definition setHighlight (col row length : Z) (hm : t) : t :=
  let m := HighlightModel.clearHighlight (_model hm) in
  withModel
    {| HighlightModel.isHighlightAllActive :=
         HighlightModel.isHighlightAllActive m;
       HighlightModel.highlightStart := Some (col, row);
       HighlightModel.highlightStartLength := length;
       HighlightModel.highlightEnd := HighlightModel.highlightEnd m |}
    hm.

(** The body of the loop of [_convertViewportColToCharacterIndex] at
    column [i], for the target column [coords[0]]. *)
Definition convertStep (bufferLine : BufferLine.t) (coords : Coords)
    (i charIndex : Z) : Outcome Z :=
  char <- defined (BufferLine.get bufferLine i) ;;
  if CHAR_DATA_WIDTH_INDEX char =? 0 then Return (charIndex - 1)
  else if (JSString.length (CHAR_DATA_CHAR_INDEX char) >? 1)
          && negb (fst coords =? i)
  then Return (charIndex + (JSString.length (CHAR_DATA_CHAR_INDEX char) - 1))
  else Return charIndex.

(** [_convertViewportColToCharacterIndex(bufferLine, coords)] *)
Definition _convertViewportColToCharacterIndex
    (bufferLine : BufferLine.t) (coords : Coords) : Outcome Z :=
  forRange 0 (fst coords) (convertStep bufferLine coords) (fst coords).

(** [_isCharWordSeparator(charData)] *)
Definition _isCharWordSeparator (charData : option CharData) : Outcome bool :=
  c <- defined charData ;;
  if CHAR_DATA_WIDTH_INDEX c =? 0 then Return false
  else Return (JSString.indexOf WORD_SEPARATORS (CHAR_DATA_CHAR_INDEX c) >=? 0).

(** [s === ' '] *)
Definition isSpace (s : JSString.t) : bool := JSString.eqb s [32].

(** What [_getWordAt] holds when its two expansions are over (before
    [endIndex++]). *)
Record Expansion := {
  startIndex : Z;
  endIndex : Z;
  leftWideCharCount : Z;
  rightWideCharCount : Z;
  leftLongCharOffset : Z;
  rightLongCharOffset : Z
}.

(** The state of the leftward loop is
    [(startCol, startIndex, leftWideCharCount, leftLongCharOffset)]. *)
Definition expandLeft (bufferLine : BufferLine.t)
    (init : Z * Z * Z * Z) : Outcome (Z * Z * Z * Z) :=
  while (Z.to_nat (fst (fst (fst init))))
    (fun '(startCol, startIndex, _, _) =>
       if (startCol >? 0) && (startIndex >? 0)
       then sep <- _isCharWordSeparator
                     (BufferLine.get bufferLine (startCol - 1)) ;;
            Return (negb sep)
       else Return false)
    (fun '(startCol, startIndex, leftWideCharCount, leftLongCharOffset) =>
       char <- defined (BufferLine.get bufferLine (startCol - 1)) ;;
       let len := JSString.length (CHAR_DATA_CHAR_INDEX char) in
       let '(startCol, startIndex, leftWideCharCount, leftLongCharOffset) :=
         if CHAR_DATA_WIDTH_INDEX char =? 0
         then (startCol - 1, startIndex, leftWideCharCount + 1,
               leftLongCharOffset)
         else if len >? 1
         then (startCol, startIndex - (len - 1), leftWideCharCount,
               leftLongCharOffset + (len - 1))
         else (startCol, startIndex, leftWideCharCount, leftLongCharOffset) in
       Return (startCol - 1, startIndex - 1, leftWideCharCount,
               leftLongCharOffset))
    init.

(** The state of the rightward loop is
    [(endCol, endIndex, rightWideCharCount, rightLongCharOffset)]. *)
Definition expandRight (bufferLine : BufferLine.t) (line : JSString.t)
    (init : Z * Z * Z * Z) : Outcome (Z * Z * Z * Z) :=
  while (Z.to_nat (BufferLine.length bufferLine - fst (fst (fst init))))
    (fun '(endCol, endIndex, _, _) =>
       if (endCol <? BufferLine.length bufferLine)
          && (endIndex + 1 <? JSString.length line)
       then sep <- _isCharWordSeparator
                     (BufferLine.get bufferLine (endCol + 1)) ;;
            Return (negb sep)
       else Return false)
    (fun '(endCol, endIndex, rightWideCharCount, rightLongCharOffset) =>
       char <- defined (BufferLine.get bufferLine (endCol + 1)) ;;
       let len := JSString.length (CHAR_DATA_CHAR_INDEX char) in
       let '(endCol, endIndex, rightWideCharCount, rightLongCharOffset) :=
         if CHAR_DATA_WIDTH_INDEX char =? 2
         then (endCol + 1, endIndex, rightWideCharCount + 1,
               rightLongCharOffset)
         else if len >? 1
         then (endCol, endIndex + (len - 1), rightWideCharCount,
               rightLongCharOffset + (len - 1))
         else (endCol, endIndex, rightWideCharCount, rightLongCharOffset) in
       Return (endCol + 1, endIndex + 1, rightWideCharCount,
               rightLongCharOffset))
    init.

(** Lines 513 to 577 of [_getWordAt]: the expansion around the string
    index [startIndex] of [coords], over white space or over a word. *)
Definition expand (bufferLine : BufferLine.t) (line : JSString.t)
    (coords : Coords) (startIndex : Z) : Outcome Expansion :=
  if isSpace (JSString.charAt line startIndex) then
    startIndex' <- while (Z.to_nat startIndex)
                     (fun startIndex =>
                        Return ((startIndex >? 0)
                                && isSpace (JSString.charAt line (startIndex - 1))))
                     (fun startIndex => Return (startIndex - 1))
                     startIndex ;;
    endIndex' <- while (Z.to_nat (JSString.length line - startIndex))
                   (fun endIndex =>
                      Return ((endIndex <? JSString.length line)
                              && isSpace (JSString.charAt line (endIndex + 1))))
                   (fun endIndex => Return (endIndex + 1))
                   startIndex ;;
    Return {| startIndex := startIndex'; endIndex := endIndex';
              leftWideCharCount := 0; rightWideCharCount := 0;
              leftLongCharOffset := 0; rightLongCharOffset := 0 |}
  else
    let startCol := fst coords in
    let endCol := fst coords in
    char <- defined (BufferLine.get bufferLine startCol) ;;
    let '(leftWideCharCount, startCol) :=
      if CHAR_DATA_WIDTH_INDEX char =? 0
      then (1, startCol - 1) else (0, startCol) in
    char <- defined (BufferLine.get bufferLine endCol) ;;
    let '(rightWideCharCount, endCol) :=
      if CHAR_DATA_WIDTH_INDEX char =? 2
      then (1, endCol + 1) else (0, endCol) in
    char <- defined (BufferLine.get bufferLine endCol) ;;
    let len := JSString.length (CHAR_DATA_CHAR_INDEX char) in
    let '(rightLongCharOffset, endIndex) :=
      if len >? 1
      then (len - 1, startIndex + (len - 1)) else (0, startIndex) in
    '(_, startIndex', leftWideCharCount', leftLongCharOffset') <-
      expandLeft bufferLine (startCol, startIndex, leftWideCharCount, 0) ;;
    '(_, endIndex', rightWideCharCount', rightLongCharOffset') <-
      expandRight bufferLine line
        (endCol, endIndex, rightWideCharCount, rightLongCharOffset) ;;
    Return {| startIndex := startIndex'; endIndex := endIndex';
              leftWideCharCount := leftWideCharCount';
              rightWideCharCount := rightWideCharCount';
              leftLongCharOffset := leftLongCharOffset';
              rightLongCharOffset := rightLongCharOffset' |}.

(** [code !== 32] on a cell that may be [undefined]. *)
Definition notSpaceCode (charData : option CharData) : Outcome bool :=
  c <- defined charData ;;
  Return (negb (CHAR_DATA_CODE_INDEX c =? 32)).

(** [_getWordAt(coords, allowWhitespaceOnlyHighlight,
    followWrappedLinesAbove, followWrappedLinesBelow)]; the fuel bounds
    the depth of the recursion over rows. *)
Fixpoint _getWordAt (fuel : nat) (term : ITerminal) (coords : Coords)
    (allowWhitespaceOnlyHighlight : bool)
    (followWrappedLinesAbove followWrappedLinesBelow : bool)
    : Outcome (option IWordPosition.t) :=
  match fuel with
  | O => OutOfFuel
  | S fuel' =>
    if fst coords >=? cols term then Return None
    else
      match lines_get (buffer term) (snd coords) with
      | None => Return None
      | Some bufferLine =>
        let line :=
          translateBufferLineToString (buffer term) (snd coords) false 0 None in
        startIndex0 <- _convertViewportColToCharacterIndex bufferLine coords ;;
        let charOffset := fst coords - startIndex0 in
        e <- expand bufferLine line coords startIndex0 ;;
        let endIndex := endIndex e + 1 in
        let start :=
          startIndex e + charOffset - leftWideCharCount e
          + leftLongCharOffset e in
        let length :=
          Z.min (cols term)
                (endIndex - startIndex e + leftWideCharCount e
                 + rightWideCharCount e - leftLongCharOffset e
                 - rightLongCharOffset e) in
        if negb allowWhitespaceOnlyHighlight
           && JSString.eqb
                (JSString.trim (JSString.slice line (startIndex e) endIndex)) []
        then Return None
        else
          '(start, length) <-
            (if followWrappedLinesAbove then
               c1 <- (if start =? 0
                      then notSpaceCode (BufferLine.get bufferLine 0)
                      else Return false) ;;
               if c1 : bool then
                 c2 <- match lines_get (buffer term) (snd coords - 1) with
                       | Some previousBufferLine =>
                           if BufferLine.isWrapped bufferLine
                           then notSpaceCode
                                  (BufferLine.get previousBufferLine
                                     (cols term - 1))
                           else Return false
                       | None => Return false
                       end ;;
                 if c2 : bool then
                   previousLineWordPosition <-
                     _getWordAt fuel' term (cols term - 1, snd coords - 1)
                       false true false ;;
                   match previousLineWordPosition with
                   | Some p =>
                       let offset := cols term - IWordPosition.start p in
                       Return (start - offset, length + offset)
                   | None => Return (start, length)
                   end
                 else Return (start, length)
               else Return (start, length)
             else Return (start, length)) ;;
          length <-
            (if followWrappedLinesBelow then
               c1 <- (if start + length =? cols term
                      then notSpaceCode
                             (BufferLine.get bufferLine (cols term - 1))
                      else Return false) ;;
               if c1 : bool then
                 c2 <- match lines_get (buffer term) (snd coords + 1) with
                       | Some nextBufferLine =>
                           if BufferLine.isWrapped nextBufferLine
                           then notSpaceCode (BufferLine.get nextBufferLine 0)
                           else Return false
                       | None => Return false
                       end ;;
                 if c2 : bool then
                   nextLineWordPosition <-
                     _getWordAt fuel' term (0, snd coords + 1)
                       false false true ;;
                   match nextLineWordPosition with
                   | Some p => Return (length + IWordPosition.length p)
                   | None => Return length
                   end
                 else Return length
               else Return length
             else Return length) ;;
          Return (Some {| IWordPosition.start := start;
                          IWordPosition.length := length |})
      end
  end.

(** A call of [_getWordAt] with its default flags: every nested call
    moves one row up or one row down and stops at a missing row, so the
    depth is at most the number of rows. *)
Definition getWordAt (term : ITerminal) (coords : Coords)
    (allowWhitespaceOnlyHighlight : bool) : Outcome (option IWordPosition.t) :=
  _getWordAt (S (List.length (lines (buffer term)))) term coords
    allowWhitespaceOnlyHighlight true true.

(** [_areCoordsInSelection(coords, start, end)] *)
Definition _areCoordsInSelection (coords start end_ : Coords) : bool :=
  ((snd coords >? snd start) && (snd coords <? snd end_))
  || ((snd start =? snd end_) && (snd coords =? snd start)
      && (fst coords >=? fst start) && (fst coords <? fst end_))
  || ((snd start <? snd end_) && (snd coords =? snd end_)
      && (fst coords <? fst end_))
  || ((snd start <? snd end_) && (snd coords =? snd start)
      && (fst coords >=? fst start)).

(** The fields of a mouse or keyboard event the manager reads. *)
Record InputEvent := {
  altKey : bool;
  shiftKey : bool
}.

(** [shouldForceSelection(event)]; [isMac] is [Browser.isMac] and
    [macOptionClickForcesSelection] the option of that name of the
    terminal. *)
Definition shouldForceSelection (isMac macOptionClickForcesSelection : bool)
    (event : InputEvent) : bool :=
  if isMac then altKey event && macOptionClickForcesSelection
  else shiftKey event.

(** [shouldColumnSelect(event)] *)
Definition shouldColumnSelect (isMac macOptionClickForcesSelection : bool)
    (event : InputEvent) : bool :=
  altKey event && negb (isMac && macOptionClickForcesSelection).

(** [_selectWordAt(coords, allowWhitespaceOnlySelection)]: the new
    manager and the array [coords] as the call leaves it, since the loop
    over a negative start lowers [coords[1]].  The state of the loop is
    [(wordPosition.start, coords[1])]. *)
Definition _selectWordAt (term : ITerminal) (coords : Coords)
    (allowWhitespaceOnlySelection : bool) (hm : t) : Outcome (t * Coords) :=
  wordPosition <- getWordAt term coords allowWhitespaceOnlySelection ;;
  match wordPosition with
  | Some wp =>
      '(start, row) <-
        while (Z.to_nat (- IWordPosition.start wp))
          (fun '(start, _) => Return (start <? 0))
          (fun '(start, row) => Return (start + cols term, row - 1))
          (IWordPosition.start wp, snd coords) ;;
      Return
        (withModel
           {| HighlightModel.isHighlightAllActive :=
                HighlightModel.isHighlightAllActive (_model hm);
              HighlightModel.highlightStart := Some (start, row);
              HighlightModel.highlightStartLength := IWordPosition.length wp;
              HighlightModel.highlightEnd :=
                HighlightModel.highlightEnd (_model hm) |}
           hm,
         (fst coords, row))
  | None => Return (hm, coords)
  end.

End HighlightManager.

(** ** The word expansion over any row lookup

    What a row answers to [bufferLine.get(i)] at a column outside it is
    decided by the implementation of [IBufferLine], which is not part of
    the source at hand, and the spec says nothing of it.  The functions
    of [HighlightManager] that read cells are given here a second time
    with the lookup as the parameter [get]: the same code line by line,
    [bufferLine.get(i)] being [get bufferLine i].  At [BufferLine.get]
    they are the functions of [HighlightManager]. *)

Module WithLookup.

Import HighlightManager.

Section Lookup.

Variable get : BufferLine.t -> Z -> option CharData.

(** The body of the loop of [_convertViewportColToCharacterIndex] at
    column [i], for the target column [coords[0]]. *)
Definition convertStep (bufferLine : BufferLine.t) (coords : Coords)
    (i charIndex : Z) : Outcome Z :=
  char <- defined (get bufferLine i) ;;
  if CHAR_DATA_WIDTH_INDEX char =? 0 then Return (charIndex - 1)
  else if (JSString.length (CHAR_DATA_CHAR_INDEX char) >? 1)
          && negb (fst coords =? i)
  then Return (charIndex + (JSString.length (CHAR_DATA_CHAR_INDEX char) - 1))
  else Return charIndex.

(** [_convertViewportColToCharacterIndex(bufferLine, coords)] *)
Definition _convertViewportColToCharacterIndex
    (bufferLine : BufferLine.t) (coords : Coords) : Outcome Z :=
  forRange 0 (fst coords) (convertStep bufferLine coords) (fst coords).

(** The state of the leftward loop is
    [(startCol, startIndex, leftWideCharCount, leftLongCharOffset)]. *)
Definition expandLeft (bufferLine : BufferLine.t)
    (init : Z * Z * Z * Z) : Outcome (Z * Z * Z * Z) :=
  while (Z.to_nat (fst (fst (fst init))))
    (fun '(startCol, startIndex, _, _) =>
       if (startCol >? 0) && (startIndex >? 0)
       then sep <- _isCharWordSeparator (get bufferLine (startCol - 1)) ;;
            Return (negb sep)
       else Return false)
    (fun '(startCol, startIndex, leftWideCharCount, leftLongCharOffset) =>
       char <- defined (get bufferLine (startCol - 1)) ;;
       let len := JSString.length (CHAR_DATA_CHAR_INDEX char) in
       let '(startCol, startIndex, leftWideCharCount, leftLongCharOffset) :=
         if CHAR_DATA_WIDTH_INDEX char =? 0
         then (startCol - 1, startIndex, leftWideCharCount + 1,
               leftLongCharOffset)
         else if len >? 1
         then (startCol, startIndex - (len - 1), leftWideCharCount,
               leftLongCharOffset + (len - 1))
         else (startCol, startIndex, leftWideCharCount, leftLongCharOffset) in
       Return (startCol - 1, startIndex - 1, leftWideCharCount,
               leftLongCharOffset))
    init.

(** The state of the rightward loop is
    [(endCol, endIndex, rightWideCharCount, rightLongCharOffset)]. *)
Definition expandRight (bufferLine : BufferLine.t) (line : JSString.t)
    (init : Z * Z * Z * Z) : Outcome (Z * Z * Z * Z) :=
  while (Z.to_nat (BufferLine.length bufferLine - fst (fst (fst init))))
    (fun '(endCol, endIndex, _, _) =>
       if (endCol <? BufferLine.length bufferLine)
          && (endIndex + 1 <? JSString.length line)
       then sep <- _isCharWordSeparator (get bufferLine (endCol + 1)) ;;
            Return (negb sep)
       else Return false)
    (fun '(endCol, endIndex, rightWideCharCount, rightLongCharOffset) =>
       char <- defined (get bufferLine (endCol + 1)) ;;
       let len := JSString.length (CHAR_DATA_CHAR_INDEX char) in
       let '(endCol, endIndex, rightWideCharCount, rightLongCharOffset) :=
         if CHAR_DATA_WIDTH_INDEX char =? 2
         then (endCol + 1, endIndex, rightWideCharCount + 1,
               rightLongCharOffset)
         else if len >? 1
         then (endCol, endIndex + (len - 1), rightWideCharCount,
               rightLongCharOffset + (len - 1))
         else (endCol, endIndex, rightWideCharCount, rightLongCharOffset) in
       Return (endCol + 1, endIndex + 1, rightWideCharCount,
               rightLongCharOffset))
    init.

(** Lines 513 to 577 of [_getWordAt]: the expansion around the string
    index [startIndex] of [coords], over white space or over a word. *)
Definition expand (bufferLine : BufferLine.t) (line : JSString.t)
    (coords : Coords) (startIndex : Z) : Outcome Expansion :=
  if isSpace (JSString.charAt line startIndex) then
    startIndex' <- while (Z.to_nat startIndex)
                     (fun startIndex =>
                        Return ((startIndex >? 0)
                                && isSpace (JSString.charAt line (startIndex - 1))))
                     (fun startIndex => Return (startIndex - 1))
                     startIndex ;;
    endIndex' <- while (Z.to_nat (JSString.length line - startIndex))
                   (fun endIndex =>
                      Return ((endIndex <? JSString.length line)
                              && isSpace (JSString.charAt line (endIndex + 1))))
                   (fun endIndex => Return (endIndex + 1))
                   startIndex ;;
    Return {| startIndex := startIndex'; endIndex := endIndex';
              leftWideCharCount := 0; rightWideCharCount := 0;
              leftLongCharOffset := 0; rightLongCharOffset := 0 |}
  else
    let startCol := fst coords in
    let endCol := fst coords in
    char <- defined (get bufferLine startCol) ;;
    let '(leftWideCharCount, startCol) :=
      if CHAR_DATA_WIDTH_INDEX char =? 0
      then (1, startCol - 1) else (0, startCol) in
    char <- defined (get bufferLine endCol) ;;
    let '(rightWideCharCount, endCol) :=
      if CHAR_DATA_WIDTH_INDEX char =? 2
      then (1, endCol + 1) else (0, endCol) in
    char <- defined (get bufferLine endCol) ;;
    let len := JSString.length (CHAR_DATA_CHAR_INDEX char) in
    let '(rightLongCharOffset, endIndex) :=
      if len >? 1
      then (len - 1, startIndex + (len - 1)) else (0, startIndex) in
    '(_, startIndex', leftWideCharCount', leftLongCharOffset') <-
      expandLeft bufferLine (startCol, startIndex, leftWideCharCount, 0) ;;
    '(_, endIndex', rightWideCharCount', rightLongCharOffset') <-
      expandRight bufferLine line
        (endCol, endIndex, rightWideCharCount, rightLongCharOffset) ;;
    Return {| startIndex := startIndex'; endIndex := endIndex';
              leftWideCharCount := leftWideCharCount';
              rightWideCharCount := rightWideCharCount';
              leftLongCharOffset := leftLongCharOffset';
              rightLongCharOffset := rightLongCharOffset' |}.

(** [_getWordAt(coords, allowWhitespaceOnlyHighlight,
    followWrappedLinesAbove, followWrappedLinesBelow)]; the fuel bounds
    the depth of the recursion over rows. *)
Fixpoint _getWordAt (fuel : nat) (term : ITerminal) (coords : Coords)
    (allowWhitespaceOnlyHighlight : bool)
    (followWrappedLinesAbove followWrappedLinesBelow : bool)
    : Outcome (option IWordPosition.t) :=
  match fuel with
  | O => OutOfFuel
  | S fuel' =>
    if fst coords >=? cols term then Return None
    else
      match lines_get (buffer term) (snd coords) with
      | None => Return None
      | Some bufferLine =>
        let line :=
          translateBufferLineToString (buffer term) (snd coords) false 0 None in
        startIndex0 <- _convertViewportColToCharacterIndex bufferLine coords ;;
        let charOffset := fst coords - startIndex0 in
        e <- expand bufferLine line coords startIndex0 ;;
        let endIndex := endIndex e + 1 in
        let start :=
          startIndex e + charOffset - leftWideCharCount e
          + leftLongCharOffset e in
        let length :=
          Z.min (cols term)
                (endIndex - startIndex e + leftWideCharCount e
                 + rightWideCharCount e - leftLongCharOffset e
                 - rightLongCharOffset e) in
        if negb allowWhitespaceOnlyHighlight
           && JSString.eqb
                (JSString.trim (JSString.slice line (startIndex e) endIndex)) []
        then Return None
        else
          '(start, length) <-
            (if followWrappedLinesAbove then
               c1 <- (if start =? 0
                      then notSpaceCode (get bufferLine 0)
                      else Return false) ;;
               if c1 : bool then
                 c2 <- match lines_get (buffer term) (snd coords - 1) with
                       | Some previousBufferLine =>
                           if BufferLine.isWrapped bufferLine
                           then notSpaceCode
                                  (get previousBufferLine (cols term - 1))
                           else Return false
                       | None => Return false
                       end ;;
                 if c2 : bool then
                   previousLineWordPosition <-
                     _getWordAt fuel' term (cols term - 1, snd coords - 1)
                       false true false ;;
                   match previousLineWordPosition with
                   | Some p =>
                       let offset := cols term - IWordPosition.start p in
                       Return (start - offset, length + offset)
                   | None => Return (start, length)
                   end
                 else Return (start, length)
               else Return (start, length)
             else Return (start, length)) ;;
          length <-
            (if followWrappedLinesBelow then
               c1 <- (if start + length =? cols term
                      then notSpaceCode (get bufferLine (cols term - 1))
                      else Return false) ;;
               if c1 : bool then
                 c2 <- match lines_get (buffer term) (snd coords + 1) with
                       | Some nextBufferLine =>
                           if BufferLine.isWrapped nextBufferLine
                           then notSpaceCode (get nextBufferLine 0)
                           else Return false
                       | None => Return false
                       end ;;
                 if c2 : bool then
                   nextLineWordPosition <-
                     _getWordAt fuel' term (0, snd coords + 1)
                       false false true ;;
                   match nextLineWordPosition with
                   | Some p => Return (length + IWordPosition.length p)
                   | None => Return length
                   end
                 else Return length
               else Return length
             else Return length) ;;
          Return (Some {| IWordPosition.start := start;
                          IWordPosition.length := length |})
      end
  end.

(** A call of [_getWordAt] with its default flags, the depth being at
    most the number of rows. *)
Definition getWordAt (term : ITerminal) (coords : Coords)
    (allowWhitespaceOnlyHighlight : bool) : Outcome (option IWordPosition.t) :=
  _getWordAt (S (List.length (lines (buffer term)))) term coords
    allowWhitespaceOnlyHighlight true true.


End Lookup.

End WithLookup.

(** ** Redraw requests and events

    The part of [HighlightManager] that talks to the renderer: the
    pending animation frame, the calls of [window.requestAnimationFrame]
    and the events emitted.  The handle a call of
    [window.requestAnimationFrame] returns is chosen by the browser; it
    is an argument of every operation that may ask for a frame.  The
    callback handed to the browser is [_refresh]. *)

Module Redraw.

(** [this.emit('refresh', {start, end, columnSelectMode})],
    [this.emit('newhighlight', text)] and
    [this._terminal.emit('highlight')]. *)
Inductive Emitted : Type :=
| refreshEvent (start end_ : option Coords) (columnSelectMode : bool)
| newhighlightEvent (text : JSString.t)
| highlightEvent.

(** The manager with its frame handle, the handles of the frames asked
    for and the events emitted, both newest first. *)
Record t := {
  manager : HighlightManager.t;
  _refreshAnimationFrame : option Z;
  requested : list Z;
  emitted : list Emitted
}.

(** [!this._refreshAnimationFrame]: [undefined], [null] and 0 are
    falsy. *)
Definition noFrame (s : t) : bool :=
  match _refreshAnimationFrame s with
  | None => true
  | Some h => h =? 0
  end.

Definition withManager (hm : HighlightManager.t) (s : t) : t :=
  {| manager := hm;
     _refreshAnimationFrame := _refreshAnimationFrame s;
     requested := requested s;
     emitted := emitted s |}.

Definition emit (e : Emitted) (s : t) : t :=
  {| manager := manager s;
     _refreshAnimationFrame := _refreshAnimationFrame s;
     requested := requested s;
     emitted := e :: emitted s |}.

(** [refresh(isNewHighlight)]; [isLinux] is [Browser.isLinux] and
    [handle] what [window.requestAnimationFrame] returns if it is
    called. *)
Definition refresh (isLinux isMSWindows : bool) (term : ITerminal)
    (handle : Z) (isNewHighlight : bool) (s : t) : Outcome t :=
  let s :=
    if noFrame s
    then {| manager := manager s;
            _refreshAnimationFrame := Some handle;
            requested := handle :: requested s;
            emitted := emitted s |}
    else s in
  if isLinux && isNewHighlight then
    selectionText <- HighlightManager.highlightText isMSWindows term (manager s) ;;
    if negb (JSString.length selectionText =? 0) then
      text <- HighlightManager.highlightText isMSWindows term (manager s) ;;
      Return (emit (newhighlightEvent text) s)
    else Return s
  else Return s.

(** [_refresh()] *)
Definition _refresh (term : ITerminal) (s : t) : t :=
  emit
    (refreshEvent
       (HighlightModel.finalHighlightStart (HighlightManager._model (manager s)))
       (HighlightModel.finalHighlightEnd term
          (HighlightManager._model (manager s)))
       (HighlightManager.isCOLUMN
          (HighlightManager._activeHighlightMode (manager s))))
    {| manager := manager s;
       _refreshAnimationFrame := None;
       requested := requested s;
       emitted := emitted s |}.

(** [clearHighlight()] *)
Definition clearHighlight (isLinux isMSWindows : bool) (term : ITerminal)
    (handle : Z) (s : t) : Outcome t :=
  refresh isLinux isMSWindows term handle false
    (withManager (HighlightManager.clearHighlight (manager s)) s).

(** [disable()] *)
Definition disable (isLinux isMSWindows : bool) (term : ITerminal)
    (handle : Z) (s : t) : Outcome t :=
  clearHighlight isLinux isMSWindows term handle s.

(** [highlightAll()] *)
Definition highlightAll (isLinux isMSWindows : bool) (term : ITerminal)
    (handle : Z) (s : t) : Outcome t :=
  s <- refresh isLinux isMSWindows term handle false
         (withManager (HighlightManager.highlightAll (manager s)) s) ;;
  Return (emit highlightEvent s).

(** [highlightLines(start, end)] *)
Definition highlightLines (isLinux isMSWindows : bool) (term : ITerminal)
    (handle : Z) (start end_ : Z) (s : t) : Outcome t :=
  s <- refresh isLinux isMSWindows term handle false
         (withManager
            (HighlightManager.highlightLines term start end_ (manager s)) s) ;;
  Return (emit highlightEvent s).

(** [setHighlight(col, row, length)] *)
Definition setHighlight (isLinux isMSWindows : bool) (term : ITerminal)
    (handle : Z) (col row length : Z) (s : t) : Outcome t :=
  refresh isLinux isMSWindows term handle false
    (withManager (HighlightManager.setHighlight col row length (manager s)) s).

(** [_onTrim(amount)] *)
Definition _onTrim (isLinux isMSWindows : bool) (term : ITerminal)
    (handle : Z) (amount : Z) (s : t) : Outcome t :=
  let needsRefresh :=
    snd (HighlightModel.onTrim amount (HighlightManager._model (manager s))) in
  let s := withManager (HighlightManager._onTrim amount (manager s)) s in
  if needsRefresh then refresh isLinux isMSWindows term handle false s
  else Return s.

End Redraw.

(** ** Properties the statements below are about *)

(** First end point not after the second: row before, or same row and
    column before or equal. *)
Definition normalized (s e : Coords) : Prop :=
  snd s <= snd e /\ (snd s = snd e -> fst s <= fst e).

(** The cleared model. *)
Definition cleared : HighlightModel.t :=
  {| HighlightModel.isHighlightAllActive := false;
     HighlightModel.highlightStart := None;
     HighlightModel.highlightStartLength := 0;
     HighlightModel.highlightEnd := None |}.

(** The string index at which the content of column [col] begins in the
    rendered string of a row: the length of what the columns before it
    render to. *)
Definition contentStart (row : BufferLine.t) (col : Z) : Z :=
  JSString.length (rendered (firstn (Z.to_nat col) (BufferLine.cells row))).

(** The scan of columns [0..target] in the words of the specification:
    the running index starts at the target column, a cell of width 0
    takes one off, a cell whose fragment is longer than one unit and
    which is not the target column adds the fragment length less one. *)
Definition scanStep (target i : Z) (c : CharData) : Z :=
  (if CHAR_DATA_WIDTH_INDEX c =? 0 then -1 else 0)
  + (if (JSString.length (CHAR_DATA_CHAR_INDEX c) >? 1) && negb (i =? target)
     then JSString.length (CHAR_DATA_CHAR_INDEX c) - 1 else 0).

Fixpoint scanColumns (target i : Z) (cs : list CharData) (running : Z) : Z :=
  match cs with
  | [] => running
  | c :: cs' => scanColumns target (i + 1) cs' (running + scanStep target i c)
  end.

Definition gridColumnToStringIndex (row : BufferLine.t) (target : Z) : Z :=
  scanColumns target 0
    (firstn (Z.to_nat (target + 1)) (BufferLine.cells row)) target.

(** Cells as the buffer writes them: a continuation cell (width 0) holds
    at most one code unit, any other cell at least one. *)
Definition cellOk (c : CharData) : Prop :=
  if CHAR_DATA_WIDTH_INDEX c =? 0
  then JSString.length (CHAR_DATA_CHAR_INDEX c) <= 1
  else 1 <= JSString.length (CHAR_DATA_CHAR_INDEX c).

(** Row-major order on coordinates: [lexLe a b] when [a] is at or before
    [b], [lexLt a b] when [a] is before [b]. *)
Definition lexLe (a b : Coords) : Prop :=
  snd a < snd b \/ (snd a = snd b /\ fst a <= fst b).

Definition lexLt (a b : Coords) : Prop :=
  snd a < snd b \/ (snd a = snd b /\ fst a < fst b).

(** The cell number of a coordinate pair when the rows of [c] cells are
    laid end to end. *)
Definition linear (c : Z) (p : Coords) : Z := fst p + c * snd p.

(** A coordinate pair moved up by [amount] rows. *)
Definition shiftRow (amount : Z) (p : Coords) : Coords :=
  (fst p, snd p - amount).

(** The rows [i, i + 1, ...], [n] of them: the values a loop
    [for (let r = i; ...; r++)] of [n] rounds takes. *)
Fixpoint rowsFrom (n : nat) (i : Z) : list Z :=
  match n with
  | O => []
  | S n' => i :: rowsFrom n' (i + 1)
  end.

(** What [highlightText] takes from row [i] of the range from [s] to [e]
    outside column mode: the first row from the start column, up to the
    end column when the range ends on it; a row in the middle as a whole;
    the last row up to the end column. *)
Definition rowText (term : ITerminal) (s e : Coords) (i : Z) : JSString.t :=
  if i =? snd s
  then translateBufferLineToString (buffer term) i true (fst s)
         (if snd s =? snd e then Some (fst e) else None)
  else if i <? snd e
  then translateBufferLineToString (buffer term) i true 0 None
  else translateBufferLineToString (buffer term) i true 0 (Some (fst e)).

(** The line separator of the platform. *)
Definition lineSeparator (isMSWindows : bool) : JSString.t :=
  if isMSWindows then [13; 10] else [10].

(** What stands between the text of row [i] and the text before it:
    nothing when the row is wrapped, the line separator otherwise. *)
Definition rowJoint (isMSWindows : bool) (term : ITerminal) (i : Z)
    : JSString.t :=
  match lines_get (buffer term) i with
  | Some bufferLine =>
      if BufferLine.isWrapped bufferLine then [] else lineSeparator isMSWindows
  | None => lineSeparator isMSWindows
  end.

(** The last step of [highlightText]: non-breaking spaces become spaces
    in every line and the lines are joined. *)
Definition unbreak (s : JSString.t) : JSString.t :=
  JSString.replaceAll HighlightManager.NON_BREAKING_SPACE_CHAR 32 s.

Definition formatLines (isMSWindows : bool) (result : list JSString.t)
    : JSString.t :=
  JSString.join (lineSeparator isMSWindows) (List.map unbreak result).

(** A cell that takes part in the rendered string with one code unit. *)
Definition oneUnit (c : CharData) : Prop :=
  CHAR_DATA_WIDTH_INDEX c <> 0 /\ JSString.length (CHAR_DATA_CHAR_INDEX c) = 1.

(** A cell holding one space. *)
Definition blankCell (c : CharData) : Prop :=
  CHAR_DATA_WIDTH_INDEX c <> 0 /\ CHAR_DATA_CHAR_INDEX c = [32].


(** A row lookup that answers every column with a cell, also the columns
    outside the row. *)
Definition answersEveryColumn
    (get : BufferLine.t -> Z -> option CharData) : Prop :=
  forall (bufferLine : BufferLine.t) (i : Z), get bufferLine i <> None.

(** A row lookup that answers a column of the row with the cell of that
    column. *)
Definition readsTheRow (get : BufferLine.t -> Z -> option CharData) : Prop :=
  forall (bufferLine : BufferLine.t) (i : Z) (c : CharData),
    0 <= i ->
    nth_error (BufferLine.cells bufferLine) (Z.to_nat i) = Some c ->
    get bufferLine i = Some c.

(** ** Concrete buffers and states *)

Module Ex.

Definition model (all : bool) (s : option Coords) (len : Z)
    (e : option Coords) : HighlightModel.t :=
  {| HighlightModel.isHighlightAllActive := all;
     HighlightModel.highlightStart := s;
     HighlightModel.highlightStartLength := len;
     HighlightModel.highlightEnd := e |}.

(** A terminal of [c] columns and [r] rows over the rows [ls]. *)
Definition terminal (c r : Z) (ls : list BufferLine.t) : ITerminal :=
  {| cols := c; rows := r; buffer := {| lines := ls; ybase := 0 |} |}.

(** A cell of width 1 holding one Latin-1 character. *)
Definition cell (a : ascii) : CharData :=
  {| CHAR_DATA_CHAR_INDEX := [Z.of_N (N_of_ascii a)];
     CHAR_DATA_WIDTH_INDEX := 1;
     CHAR_DATA_CODE_INDEX := Z.of_N (N_of_ascii a) |}.

Definition row (s : string) (wrapped : bool) : BufferLine.t :=
  {| BufferLine.cells := List.map cell (list_ascii_of_string s);
     BufferLine.isWrapped := wrapped |}.

(** U+20000, a wide ideograph outside the basic plane: two columns, two
    code units (D840 DC00), followed by its continuation cell. *)
Definition wide : CharData :=
  {| CHAR_DATA_CHAR_INDEX := [55360; 56320];
     CHAR_DATA_WIDTH_INDEX := 2;
     CHAR_DATA_CODE_INDEX := 131072 |}.

Definition continuation : CharData :=
  {| CHAR_DATA_CHAR_INDEX := [];
     CHAR_DATA_WIDTH_INDEX := 0;
     CHAR_DATA_CODE_INDEX := 0 |}.

(** U+4E2D, a wide ideograph of the basic plane: two columns, one code
    unit. *)
Definition wideOne : CharData :=
  {| CHAR_DATA_CHAR_INDEX := [20013];
     CHAR_DATA_WIDTH_INDEX := 2;
     CHAR_DATA_CODE_INDEX := 20013 |}.

Definition wideOneRow : BufferLine.t :=
  {| BufferLine.cells := [wideOne; continuation];
     BufferLine.isWrapped := false |}.

Definition wideRow : BufferLine.t :=
  {| BufferLine.cells := [wide; continuation];
     BufferLine.isWrapped := false |}.

(** A lookup that answers every column: the cell of the row inside the
    row, an empty cell of width 0 outside it. *)
Definition answering (bufferLine : BufferLine.t) (i : Z) : option CharData :=
  Some match BufferLine.get bufferLine i with
       | Some c => c
       | None => continuation
       end.

(** Four columns, the word foobar wrapped after foob. *)
Definition foobar : ITerminal :=
  terminal 4 2 [row "foob" false; row "ar  " true].

(** Two columns, one row holding the wide ideograph. *)
Definition ideograph : ITerminal := terminal 2 1 [wideRow].

(** Four columns, one row holding ab and the wide ideograph. *)
Definition wideWord : ITerminal :=
  terminal 4 1
    [{| BufferLine.cells := [cell "a"; cell "b"; wide; continuation];
        BufferLine.isWrapped := false |}].

(** Five empty rows of four columns. *)
Definition fiveRows : ITerminal :=
  terminal 4 5 (repeat (row "    " false) 5).

Definition manager (m : HighlightModel.t) (mode : HighlightMode)
    : HighlightManager.t :=
  {| HighlightManager._model := m;
     HighlightManager._activeHighlightMode := mode |}.

(** The manager of a fresh terminal with its redraw state: no frame
    pending, nothing asked for, nothing emitted. *)
Definition idle : Redraw.t :=
  {| Redraw.manager := manager cleared NORMAL;
     Redraw._refreshAnimationFrame := None;
     Redraw.requested := [];
     Redraw.emitted := [] |}.

End Ex.

(** ** Proof steps *)

(** One step of case analysis on an equation between outcomes, in the
    order the code evaluates. *)
Ltac unbind :=
  match goal with
  | H : bind ?m _ = _ |- _ =>
      let E := fresh "E" in
      destruct m eqn:E; cbn [bind] in H; try discriminate H
  | H : (if ?b then _ else _) = _ |- _ =>
      let E := fresh "E" in destruct b eqn:E; try discriminate H
  | H : match ?o with Some _ => _ | None => _ end = _ |- _ =>
      let E := fresh "E" in destruct o eqn:E; try discriminate H
  | H : (let '(_, _) := ?x in _) = _ |- _ =>
      let E := fresh "E" in destruct x eqn:E
  | H : Return _ = Return _ |- _ => injection H as H; try subst
  | H : (_, _) = (_, _) |- _ => inversion H; clear H; subst
  end.

(** * Theorems *)

(** ** HighlightModel *)

Section Model.

Import HighlightModel.

Variable term : ITerminal.

Lemma reversed_spec (m : t) (s e : Coords) :
  highlightStart m = Some s -> highlightEnd m = Some e ->
  areHighlightValuesReversed m = true <->
  snd e < snd s \/ (snd s = snd e /\ fst e < fst s).
Proof.
  intros Hs He. unfold areHighlightValuesReversed. rewrite Hs, He.
  rewrite orb_true_iff, andb_true_iff, Z.eqb_eq.
  rewrite !Z.gtb_lt. tauto.
Qed.

Lemma reversed_false_spec (m : t) (s e : Coords) :
  highlightStart m = Some s -> highlightEnd m = Some e ->
  areHighlightValuesReversed m = false <->
  snd s < snd e \/ (snd s = snd e /\ fst s <= fst e).
Proof.
  intros Hs He.
  destruct (areHighlightValuesReversed m) eqn:R.
  - apply (reversed_spec m s e Hs He) in R. split; [discriminate | lia].
  - split; [intros _ | reflexivity].
    assert (N : ~ (snd e < snd s \/ (snd s = snd e /\ fst e < fst s))).
    { intro A. apply (reversed_spec m s e Hs He) in A. congruence. }
    lia.
Qed.

(** C1 (amended): when both raw end points are set, the length anchor is
    not negative, the viewport has at least one column and, in case
    highlight-all is active, the last viewport row
    [ybase + rows - 1] is not negative, both effective end points exist
    and the effective start is not after the effective end: its row is
    before or equal, and on equal rows its column is before or equal.
    This holds for either drag direction, with or without a length
    anchor and its column wrap-around. *)
Theorem finalHighlight_normalized (m : t) (s e : Coords) :
  highlightStart m = Some s -> highlightEnd m = Some e ->
  0 <= highlightStartLength m -> 0 < cols term ->
  (isHighlightAllActive m = true -> 0 <= ybase (buffer term) + rows term - 1) ->
  exists fs fe,
    finalHighlightStart m = Some fs /\ finalHighlightEnd term m = Some fe
    /\ normalized fs fe.
Proof.
  intros Hs He Hlen Hcols Hall.
  unfold finalHighlightStart, finalHighlightEnd, normalized.
  destruct (isHighlightAllActive m).
  - exists (0, 0), (cols term, ybase (buffer term) + rows term - 1).
    simpl. specialize (Hall eq_refl). repeat split; lia.
  - rewrite Hs, He. simpl.
    destruct (areHighlightValuesReversed m) eqn:R.
    + apply (reversed_spec m s e Hs He) in R.
      destruct (Z.gtb_spec (fst s + highlightStartLength m) (cols term)) as [W | W].
      * eexists _, _. repeat split; simpl.
        -- assert (1 <= (fst s + highlightStartLength m) / cols term).
           { apply Z.div_le_lower_bound; lia. }
           lia.
        -- intros Q.
           assert (1 <= (fst s + highlightStartLength m) / cols term).
           { apply Z.div_le_lower_bound; lia. }
           lia.
      * eexists _, _. repeat split; simpl; lia.
    + apply (reversed_false_spec m s e Hs He) in R.
      destruct (negb (highlightStartLength m =? 0) && (snd e =? snd s)) eqn:A.
      * apply andb_true_iff in A. destruct A as [_ A]. apply Z.eqb_eq in A.
        eexists _, _. repeat split; simpl; lia.
      * eexists _, _. repeat split; simpl; lia.
Qed.

(** C3 (amended): with highlight-all inactive and at least one viewport
    column, when the start is set and the end is unset or the end points
    are reversed, the effective end is
    [(start.column + startLength, start.row)] if that column does not
    exceed the viewport columns, and otherwise the column wraps to
    [(start.column + startLength) mod cols] on row
    [start.row + floor((start.column + startLength) / cols)]. *)
Theorem finalHighlightEnd_anchor (m : t) (s : Coords) :
  isHighlightAllActive m = false -> 0 < cols term ->
  highlightStart m = Some s ->
  highlightEnd m = None \/ areHighlightValuesReversed m = true ->
  let startPlusLength := fst s + highlightStartLength m in
  (startPlusLength <= cols term ->
   finalHighlightEnd term m = Some (startPlusLength, snd s))
  /\ (cols term < startPlusLength ->
      finalHighlightEnd term m
      = Some (startPlusLength mod cols term,
              snd s + startPlusLength / cols term)).
Proof.
  intros Hall Hcols Hs Hcase spl. unfold finalHighlightEnd.
  rewrite Hall, Hs.
  assert (G : (match highlightEnd m with None => true | Some _ => false end
               || areHighlightValuesReversed m) = true).
  { destruct Hcase as [-> | ->]; [reflexivity | apply orb_true_r]. }
  rewrite G. fold spl. split; intros W.
  - destruct (Z.gtb_spec spl (cols term)); [lia | reflexivity].
  - destruct (Z.gtb_spec spl (cols term)); [| lia].
    rewrite Z.rem_mod_nonneg by lia. reflexivity.
Qed.

(** C4 (amended): with highlight-all inactive, both end points set and
    not reversed: if the length anchor is positive and the end is on the
    start's row, the effective end is
    [(max(start.column + startLength, end.column), end.row)]; if the
    length anchor is zero or the rows differ, the effective end is the
    stored end. *)
Theorem finalHighlightEnd_forward (m : t) (s e : Coords) :
  isHighlightAllActive m = false ->
  highlightStart m = Some s -> highlightEnd m = Some e ->
  areHighlightValuesReversed m = false ->
  (0 < highlightStartLength m /\ snd e = snd s ->
   finalHighlightEnd term m
   = Some (Z.max (fst s + highlightStartLength m) (fst e), snd e))
  /\ (highlightStartLength m = 0 \/ snd e <> snd s ->
      finalHighlightEnd term m = Some e).
Proof.
  intros Hall Hs He R. unfold finalHighlightEnd.
  rewrite Hall, Hs, He, R. simpl. split.
  - intros [L Q].
    destruct (Z.eqb_spec (highlightStartLength m) 0); [lia |].
    destruct (Z.eqb_spec (snd e) (snd s)); [reflexivity | lia].
  - intros [L | Q].
    + rewrite L. reflexivity.
    + destruct (Z.eqb_spec (snd e) (snd s)); [lia |].
      rewrite andb_false_r. reflexivity.
Qed.

End Model.

(** C5: [onTrim(amount)] moves the rows of the end points that are set up
    by [amount].  If the end is set and its new row is negative, the
    model is cleared (no end points, no length anchor, highlight-all off)
    and the result is [true].  In every other case the result is [false],
    the end keeps its column and gets its new row, the start keeps its
    column and gets its new row, or row 0 when the new row is negative,
    and the length anchor and highlight-all are as they were. *)
Theorem onTrim_spec (amount : Z) (m : HighlightModel.t) :
  (forall e, HighlightModel.highlightEnd m = Some e -> snd e - amount < 0 ->
             HighlightModel.onTrim amount m = (cleared, true))
  /\ (HighlightModel.highlightEnd m = None
      \/ (exists e, HighlightModel.highlightEnd m = Some e
                    /\ 0 <= snd e - amount) ->
      snd (HighlightModel.onTrim amount m) = false
      /\ HighlightModel.highlightEnd (fst (HighlightModel.onTrim amount m))
         = option_map (fun e : Coords => (fst e, snd e - amount))
                      (HighlightModel.highlightEnd m)
      /\ HighlightModel.highlightStartLength (fst (HighlightModel.onTrim amount m))
         = HighlightModel.highlightStartLength m
      /\ HighlightModel.isHighlightAllActive (fst (HighlightModel.onTrim amount m))
         = HighlightModel.isHighlightAllActive m
      /\ (HighlightModel.highlightStart m = None ->
          HighlightModel.highlightStart (fst (HighlightModel.onTrim amount m))
          = None)
      /\ (forall s, HighlightModel.highlightStart m = Some s ->
                    (snd s - amount < 0 ->
                     HighlightModel.highlightStart
                       (fst (HighlightModel.onTrim amount m))
                     = Some (fst s, 0))
                    /\ (0 <= snd s - amount ->
                        HighlightModel.highlightStart
                          (fst (HighlightModel.onTrim amount m))
                        = Some (fst s, snd s - amount)))).
Proof.
  unfold HighlightModel.onTrim. split.
  - intros e He Hneg. rewrite He. simpl.
    destruct (Z.ltb_spec (snd e - amount) 0); [reflexivity | lia].
  - intros Hcase.
    assert (G : match option_map (fun c : Coords => (fst c, snd c - amount))
                                 (HighlightModel.highlightEnd m) with
                | Some e => snd e <? 0
                | None => false
                end = false).
    { destruct Hcase as [-> | [e [-> Hpos]]]; simpl; [reflexivity |].
      apply Z.ltb_ge. exact Hpos. }
    rewrite G. simpl. repeat split.
    + intros ->. reflexivity.
    + intros Hneg. rewrite H. simpl.
      destruct (Z.ltb_spec (snd s - amount) 0); [reflexivity | lia].
    + intros Hpos. rewrite H. simpl.
      destruct (Z.ltb_spec (snd s - amount) 0); [lia | reflexivity].
Qed.

(** An 80 by 24 viewport with highlight-all active over a forward pair of
    end points: the effective range is normalised. *)
Lemma finalHighlight_normalized_witness :
  exists fs fe,
    HighlightModel.finalHighlightStart
      (Ex.model true (Some (2, 1)) 3 (Some (5, 1))) = Some fs
    /\ HighlightModel.finalHighlightEnd (Ex.terminal 80 24 [])
         (Ex.model true (Some (2, 1)) 3 (Some (5, 1))) = Some fe
    /\ normalized fs fe.
Proof.
  apply (finalHighlight_normalized (Ex.terminal 80 24 [])
           (Ex.model true (Some (2, 1)) 3 (Some (5, 1))) (2, 1) (5, 1)).
  - reflexivity.
  - reflexivity.
  - simpl. lia.
  - simpl. lia.
  - intros _. simpl. lia.
Defined.

(** C1 as stated fails: the claim bounds the columns, the length anchor
    and the viewport columns only.  With highlight-all active on a
    viewport without rows (base row 0) the effective end is on row -1,
    before the effective start (0, 0). *)
Lemma finalHighlight_not_normalized :
  HighlightModel.highlightStart (Ex.model true (Some (2, 1)) 0 (Some (5, 1)))
  = Some (2, 1)
  /\ HighlightModel.highlightEnd (Ex.model true (Some (2, 1)) 0 (Some (5, 1)))
     = Some (5, 1)
  /\ 0 < cols (Ex.terminal 80 0 [])
  /\ HighlightModel.finalHighlightStart
       (Ex.model true (Some (2, 1)) 0 (Some (5, 1))) = Some (0, 0)
  /\ HighlightModel.finalHighlightEnd (Ex.terminal 80 0 [])
       (Ex.model true (Some (2, 1)) 0 (Some (5, 1))) = Some (80, -1)
  /\ ~ normalized (0, 0) (80, -1).
Proof.
  repeat split; try reflexivity.
  unfold normalized. simpl. lia.
Qed.

(** The wrap-around example: 10 columns, start (8, 0), length 5, no end:
    the effective end is (3, 1). *)
Lemma finalHighlightEnd_anchor_witness :
  HighlightModel.finalHighlightEnd (Ex.terminal 10 24 [])
    (Ex.model false (Some (8, 0)) 5 None) = Some (3, 1).
Proof.
  refine (proj2 (finalHighlightEnd_anchor (Ex.terminal 10 24 [])
                   (Ex.model false (Some (8, 0)) 5 None) (8, 0)
                   _ _ _ _) _).
  - reflexivity.
  - simpl. lia.
  - reflexivity.
  - left. reflexivity.
  - simpl. lia.
Defined.

(** C3 as stated fails: the same start and length with highlight-all
    active give the viewport corner, not the anchored end. *)
Lemma finalHighlightEnd_anchor_select_all :
  HighlightModel.highlightStart (Ex.model true (Some (8, 0)) 5 None)
  = Some (8, 0)
  /\ HighlightModel.highlightEnd (Ex.model true (Some (8, 0)) 5 None) = None
  /\ HighlightModel.finalHighlightEnd (Ex.terminal 10 24 [])
       (Ex.model true (Some (8, 0)) 5 None) = Some (10, 23)
  /\ (10, 23) <> ((8 + 5) mod 10, 0 + (8 + 5) / 10).
Proof.
  repeat split; try reflexivity. discriminate.
Qed.

(** The length-anchored example: start (3, 0), length 4, end (5, 0): the
    effective end is (7, 0); and with the end on another row the stored
    end is the effective end. *)
Lemma finalHighlightEnd_forward_witness :
  HighlightModel.finalHighlightEnd (Ex.terminal 10 24 [])
    (Ex.model false (Some (3, 0)) 4 (Some (5, 0))) = Some (7, 0)
  /\ HighlightModel.finalHighlightEnd (Ex.terminal 10 24 [])
       (Ex.model false (Some (3, 0)) 4 (Some (5, 2))) = Some (5, 2).
Proof.
  split.
  - refine (proj1 (finalHighlightEnd_forward (Ex.terminal 10 24 [])
                     (Ex.model false (Some (3, 0)) 4 (Some (5, 0)))
                     (3, 0) (5, 0) _ _ _ _) _).
    + reflexivity.
    + reflexivity.
    + reflexivity.
    + reflexivity.
    + simpl. split; [lia | reflexivity].
  - refine (proj2 (finalHighlightEnd_forward (Ex.terminal 10 24 [])
                     (Ex.model false (Some (3, 0)) 4 (Some (5, 2)))
                     (3, 0) (5, 2) _ _ _ _) _).
    + reflexivity.
    + reflexivity.
    + reflexivity.
    + reflexivity.
    + right. simpl. lia.
Defined.

(** C4 as stated fails: the same end points with highlight-all active
    give the viewport corner, not (7, 0). *)
Lemma finalHighlightEnd_forward_select_all :
  HighlightModel.highlightStart (Ex.model true (Some (3, 0)) 4 (Some (5, 0)))
  = Some (3, 0)
  /\ HighlightModel.highlightEnd (Ex.model true (Some (3, 0)) 4 (Some (5, 0)))
     = Some (5, 0)
  /\ HighlightModel.areHighlightValuesReversed
       (Ex.model true (Some (3, 0)) 4 (Some (5, 0))) = false
  /\ HighlightModel.finalHighlightEnd (Ex.terminal 10 24 [])
       (Ex.model true (Some (3, 0)) 4 (Some (5, 0))) = Some (10, 23)
  /\ (10, 23) <> (Z.max (3 + 4) 5, 0).
Proof.
  repeat split; try reflexivity. discriminate.
Qed.

(** The two trim examples: start (2, 1), end (5, 1) trimmed by 2 is
    cleared; start (2, 1), end (5, 5) trimmed by 2 keeps end (5, 3) and
    clamps the start to (2, 0). *)
Lemma onTrim_spec_witness :
  HighlightModel.onTrim 2 (Ex.model false (Some (2, 1)) 0 (Some (5, 1)))
  = (cleared, true)
  /\ snd (HighlightModel.onTrim 2 (Ex.model false (Some (2, 1)) 0 (Some (5, 5))))
     = false
  /\ HighlightModel.highlightStart
       (fst (HighlightModel.onTrim 2 (Ex.model false (Some (2, 1)) 0 (Some (5, 5)))))
     = Some (2, 0).
Proof.
  split; [| split].
  - refine (proj1 (onTrim_spec 2 (Ex.model false (Some (2, 1)) 0 (Some (5, 1))))
                  (5, 1) _ _).
    + reflexivity.
    + simpl. lia.
  - refine (proj1 (proj2 (onTrim_spec 2
                            (Ex.model false (Some (2, 1)) 0 (Some (5, 5)))) _)).
    right. exists (5, 5). split; [reflexivity | simpl; lia].
  - refine (proj1 (proj2 (proj2 (proj2 (proj2 (proj2 (proj2 (onTrim_spec 2
              (Ex.model false (Some (2, 1)) 0 (Some (5, 5)))) _)))))
              (2, 1) _) _).
    + right. exists (5, 5). split; [reflexivity | simpl; lia].
    + reflexivity.
    + simpl. lia.
Defined.

(** ** HighlightManager *)

Section Manager.

Import HighlightManager.

Variable term : ITerminal.

(** C6 (amended): [highlightLines(start, end)] clears the model, bounds
    the start row from below by 0 and the end row from above by
    [lines.length - 1], and stores start [(0, max(start, 0))] and end
    [(cols, min(end, lines.length - 1))].  The stored start row is never
    negative and the stored end row never exceeds [lines.length - 1];
    both stored rows lie in [0, lines.length - 1] when the buffer has a
    row, the start argument does not exceed [lines.length - 1] and the
    end argument is not negative. *)
Theorem highlightLines_spec (start end_ : Z) (hm : t) :
  _model (highlightLines term start end_ hm)
  = {| HighlightModel.isHighlightAllActive := false;
       HighlightModel.highlightStart := Some (0, Z.max start 0);
       HighlightModel.highlightStartLength := 0;
       HighlightModel.highlightEnd :=
         Some (cols term, Z.min end_ (lines_length (buffer term) - 1)) |}
  /\ 0 <= Z.max start 0
  /\ Z.min end_ (lines_length (buffer term) - 1) <= lines_length (buffer term) - 1
  /\ (1 <= lines_length (buffer term) ->
      start <= lines_length (buffer term) - 1 -> 0 <= end_ ->
      0 <= Z.max start 0 <= lines_length (buffer term) - 1
      /\ 0 <= Z.min end_ (lines_length (buffer term) - 1)
         <= lines_length (buffer term) - 1).
Proof.
  split; [reflexivity |]. lia.
Qed.

(** C9: [highlightText] is the empty string when the effective start or
    the effective end is missing, and, in column mode, when the two
    effective columns are equal. *)
Theorem highlightText_empty (isMSWindows : bool) (hm : t) :
  (HighlightModel.finalHighlightStart (_model hm) = None
   \/ HighlightModel.finalHighlightEnd term (_model hm) = None ->
   highlightText isMSWindows term hm = Return [])
  /\ (forall s e,
        _activeHighlightMode hm = COLUMN ->
        HighlightModel.finalHighlightStart (_model hm) = Some s ->
        HighlightModel.finalHighlightEnd term (_model hm) = Some e ->
        fst s = fst e ->
        highlightText isMSWindows term hm = Return []).
Proof.
  unfold highlightText. split.
  - intros [-> | ->]; [reflexivity |].
    destruct (HighlightModel.finalHighlightStart (_model hm)); reflexivity.
  - intros s e Hmode -> -> Hcol. rewrite Hmode. simpl.
    apply Z.eqb_eq in Hcol. rewrite Hcol. reflexivity.
Qed.

End Manager.

(** Five rows: start 1 and end 3 are stored as they are, inside the
    buffer. *)
Lemma highlightLines_spec_witness :
  0 <= Z.max 1 0 <= lines_length (buffer Ex.fiveRows) - 1
  /\ 0 <= Z.min 3 (lines_length (buffer Ex.fiveRows) - 1)
     <= lines_length (buffer Ex.fiveRows) - 1.
Proof.
  refine (proj2 (proj2 (proj2 (highlightLines_spec Ex.fiveRows 1 3
                                 (Ex.manager cleared NORMAL)))) _ _ _).
  - vm_compute. discriminate.
  - vm_compute. discriminate.
  - lia.
Defined.

(** C6 as stated fails: on a buffer of five rows a start row 7 is stored
    as 7, beyond the last row 4, and an end row -2 is stored as -2. *)
Lemma highlightLines_not_clamped :
  lines_length (buffer Ex.fiveRows) = 5
  /\ HighlightModel.highlightStart
       (HighlightManager._model
          (HighlightManager.highlightLines Ex.fiveRows 7 9
             (Ex.manager cleared NORMAL))) = Some (0, 7)
  /\ ~ 7 <= lines_length (buffer Ex.fiveRows) - 1
  /\ HighlightModel.highlightEnd
       (HighlightManager._model
          (HighlightManager.highlightLines Ex.fiveRows (-3) (-2)
             (Ex.manager cleared NORMAL))) = Some (4, -2)
  /\ ~ 0 <= -2.
Proof.
  repeat split; try reflexivity.
  - vm_compute. intros H. apply H. reflexivity.
  - lia.
Qed.

(** In column mode with end points (3, 0) and (3, 2) the text is empty;
    with no start there is no text either. *)
Lemma highlightText_empty_witness :
  HighlightManager.highlightText false Ex.fiveRows
    (Ex.manager (Ex.model false (Some (3, 0)) 0 (Some (3, 2))) COLUMN)
  = Return []
  /\ HighlightManager.highlightText false Ex.fiveRows
       (Ex.manager cleared NORMAL) = Return [].
Proof.
  split.
  - refine (proj2 (highlightText_empty Ex.fiveRows false
                     (Ex.manager (Ex.model false (Some (3, 0)) 0 (Some (3, 2)))
                                 COLUMN))
                  (3, 0) (3, 2) _ _ _ _); reflexivity.
  - refine (proj1 (highlightText_empty Ex.fiveRows false
                     (Ex.manager cleared NORMAL)) _).
    left. reflexivity.
Defined.

(** C2: four columns, row 0 holding foob (not wrapped) and row 1 holding
    ar and two spaces (wrapped): the word at column 3 of row 0, white
    space not allowed, starts at column 0 and is 6 columns long. *)
Theorem getWordAt_wrapped_continuation :
  HighlightManager.getWordAt Ex.foobar (3, 0) false
  = Return (Some {| IWordPosition.start := 0; IWordPosition.length := 6 |}).
Proof. vm_compute. reflexivity. Qed.

(** ** Column to string index *)

Section Convert.

Import HighlightManager.

Variable bufferLine : BufferLine.t.
Variable target : Z.

Variable row : Z.

Lemma skipn_nth_error {A : Type} (l : list A) : forall (k : nat) (c : A),
  nth_error l k = Some c -> skipn k l = c :: skipn (S k) l.
Proof.
  induction l as [| a l IH]; intros [| k] c H; simpl in *; try discriminate.
  - injection H as ->. reflexivity.
  - apply IH. exact H.
Qed.

Lemma firstn_snoc_nth_error {A : Type} (l : list A) : forall (k : nat) (c : A),
  nth_error l k = Some c -> firstn (S k) l = firstn k l ++ [c].
Proof.
  induction l as [| a l IH]; intros [| k] c H; simpl in *; try discriminate.
  - injection H as ->. reflexivity.
  - f_equal. apply IH. exact H.
Qed.

Lemma rendered_snoc (cs : list CharData) (w : CharData) :
  rendered (cs ++ [w])
  = rendered cs
    ++ (if CHAR_DATA_WIDTH_INDEX w =? 0 then [] else CHAR_DATA_CHAR_INDEX w).
Proof.
  unfold rendered. rewrite filter_app, map_app, concat_app. f_equal.
  cbn [List.filter]. destruct (CHAR_DATA_WIDTH_INDEX w =? 0); cbn.
  - reflexivity.
  - apply app_nil_r.
Qed.

Lemma body_step (i acc : Z) (c : CharData) :
  BufferLine.get bufferLine i = Some c -> cellOk c ->
  convertStep bufferLine (target, row) i acc
  = Return (acc + scanStep target i c).
Proof.
  intros G Ok. unfold convertStep, scanStep, cellOk in *. rewrite G. simpl.
  rewrite (Z.eqb_sym target i).
  destruct (CHAR_DATA_WIDTH_INDEX c =? 0).
  - destruct (Z.gtb_spec (JSString.length (CHAR_DATA_CHAR_INDEX c)) 1); [lia |].
    simpl. f_equal; lia.
  - destruct ((JSString.length (CHAR_DATA_CHAR_INDEX c) >? 1) && negb (i =? target));
      f_equal; lia.
Qed.

Lemma loop_scan : forall (n : nat) (i acc : Z),
  0 <= i ->
  (Z.to_nat i + n <= List.length (BufferLine.cells bufferLine))%nat ->
  Forall cellOk (BufferLine.cells bufferLine) ->
  forFrom n i (convertStep bufferLine (target, row)) acc
  = Return (scanColumns target i
              (firstn n (skipn (Z.to_nat i) (BufferLine.cells bufferLine)))
              acc).
Proof.
  induction n as [| n IH]; intros i acc Hi Hn Hok; simpl.
  - reflexivity.
  - destruct (nth_error (BufferLine.cells bufferLine) (Z.to_nat i)) as [c |] eqn:E.
    2:{ apply nth_error_None in E. lia. }
    assert (G : BufferLine.get bufferLine i = Some c).
    { unfold BufferLine.get. destruct (Z.ltb_spec i 0); [lia | exact E]. }
    assert (Ok : cellOk c).
    { apply nth_error_In in E. rewrite Forall_forall in Hok. apply Hok, E. }
    rewrite (body_step i acc c G Ok). simpl.
    rewrite (skipn_nth_error _ _ _ E). simpl.
    rewrite IH; try lia; try assumption.
    replace (Z.to_nat (i + 1)) with (S (Z.to_nat i)) by lia.
    reflexivity.
Qed.

(** Over columns before the target every cell adds its rendered length
    less one column. *)
Lemma scan_before : forall (cs : list CharData) (i running : Z),
  i + Z.of_nat (List.length cs) <= target ->
  Forall cellOk cs ->
  scanColumns target i cs running
  = running + JSString.length (rendered cs) - Z.of_nat (List.length cs).
Proof.
  induction cs as [| c cs IH]; intros i running Hi Hok.
  - unfold rendered, JSString.length. simpl. lia.
  - inversion Hok as [| c' cs' Ok Hok']; subst.
    cbn [scanColumns]. rewrite IH; [| cbn [List.length] in Hi; lia | assumption].
    unfold scanStep, cellOk, rendered, JSString.length in *.
    cbn [List.length List.filter List.map List.concat].
    destruct (Z.eqb_spec i target) as [Q | _];
      [cbn [List.length] in Hi; lia |].
    destruct (CHAR_DATA_WIDTH_INDEX c =? 0); cbn [negb andb];
      rewrite ?andb_true_r.
    + destruct (Z.gtb_spec (Z.of_nat (List.length (CHAR_DATA_CHAR_INDEX c))) 1);
        [lia |].
      cbn [negb andb List.filter List.map List.concat]. lia.
    + cbn [List.map List.concat]. rewrite length_app.
      destruct (Z.gtb_spec (Z.of_nat (List.length (CHAR_DATA_CHAR_INDEX c))) 1);
        lia.
Qed.

Lemma scan_snoc : forall (cs : list CharData) (c : CharData) (i running : Z),
  scanColumns target i (cs ++ [c]) running
  = scanColumns target i cs running
    + scanStep target (i + Z.of_nat (List.length cs)) c.
Proof.
  induction cs as [| a cs IH]; intros c i running; cbn [scanColumns app].
  - cbn [List.length]. f_equal. f_equal. lia.
  - rewrite IH. cbn [List.length]. f_equal. f_equal. lia.
Qed.

End Convert.

(** C7 (amended): for a row whose continuation cells (width 0) hold at
    most one code unit and whose other cells hold at least one, and a
    target column inside the row, [_convertViewportColToCharacterIndex]
    returns what the scan of columns 0 to the target gives: the running
    index starts at the target column, every cell of width 0 takes one
    off, and every cell with more than one code unit at a column other
    than the target adds its length less one.  When the target cell has a
    width other than 0 the result is the string index at which the target
    column's content begins in the rendered string; when the target cell
    has width 0 and the cell before it holds a character of one code
    unit, the result is the string index at which that character
    begins. *)
Theorem convertViewportColToCharacterIndex_spec
    (bufferLine : BufferLine.t) (target row : Z) :
  0 <= target < BufferLine.length bufferLine ->
  Forall cellOk (BufferLine.cells bufferLine) ->
  HighlightManager._convertViewportColToCharacterIndex bufferLine (target, row)
  = Return (gridColumnToStringIndex bufferLine target)
  /\ (forall c, BufferLine.get bufferLine target = Some c ->
        (CHAR_DATA_WIDTH_INDEX c <> 0 ->
         gridColumnToStringIndex bufferLine target
         = contentStart bufferLine target)
        /\ (CHAR_DATA_WIDTH_INDEX c = 0 ->
            forall w, BufferLine.get bufferLine (target - 1) = Some w ->
                      CHAR_DATA_WIDTH_INDEX w <> 0 ->
                      JSString.length (CHAR_DATA_CHAR_INDEX w) = 1 ->
                      gridColumnToStringIndex bufferLine target
                      = contentStart bufferLine (target - 1))).
Proof.
  intros Hin Hok. unfold BufferLine.length in Hin. split.
  - unfold HighlightManager._convertViewportColToCharacterIndex, forRange.
    cbn [fst]. rewrite Z.sub_0_r.
    rewrite (loop_scan bufferLine target row); try lia; try assumption.
    reflexivity.
  - intros c G.
    assert (E : nth_error (BufferLine.cells bufferLine) (Z.to_nat target) = Some c).
    { unfold BufferLine.get in G. destruct (Z.ltb_spec target 0); [lia | exact G]. }
    assert (F : firstn (Z.to_nat (target + 1)) (BufferLine.cells bufferLine)
                = firstn (Z.to_nat target) (BufferLine.cells bufferLine) ++ [c]).
    { replace (Z.to_nat (target + 1)) with (S (Z.to_nat target)) by lia.
      apply firstn_snoc_nth_error. exact E. }
    assert (L : List.length (firstn (Z.to_nat target) (BufferLine.cells bufferLine))
                = Z.to_nat target).
    { apply firstn_length_le. lia. }
    assert (S : gridColumnToStringIndex bufferLine target
                = contentStart bufferLine target
                  + scanStep target target c).
    { unfold gridColumnToStringIndex, contentStart. rewrite F, scan_snoc.
      rewrite scan_before.
      - rewrite L. replace (0 + Z.of_nat (Z.to_nat target)) with target by lia.
        lia.
      - rewrite L. lia.
      - apply Forall_forall. intros x Hx. rewrite Forall_forall in Hok.
        apply Hok.
        rewrite <- (firstn_skipn (Z.to_nat target) (BufferLine.cells bufferLine)).
        apply in_or_app. left. exact Hx. }
    rewrite S. unfold scanStep. rewrite Z.eqb_refl, andb_false_r.
    split; intros W.
    + destruct (Z.eqb_spec (CHAR_DATA_WIDTH_INDEX c) 0); [contradiction | lia].
    + intros w Gw Ww Lw. rewrite W. cbn [Z.eqb].
      assert (Ew : nth_error (BufferLine.cells bufferLine) (Z.to_nat (target - 1))
                   = Some w).
      { unfold BufferLine.get in Gw.
        destruct (Z.ltb_spec (target - 1) 0); [discriminate | exact Gw]. }
      assert (P : 0 <= target - 1).
      { unfold BufferLine.get in Gw.
        destruct (Z.ltb_spec (target - 1) 0); [discriminate | assumption]. }
      unfold contentStart.
      replace (Z.to_nat target) with (Datatypes.S (Z.to_nat (target - 1))) by lia.
      rewrite (firstn_snoc_nth_error _ _ _ Ew), rendered_snoc.
      destruct (Z.eqb_spec (CHAR_DATA_WIDTH_INDEX w) 0); [contradiction |].
      unfold JSString.length in *. rewrite length_app. lia.
Qed.

(** A row of four narrow cells, target column 2: the conversion returns
    string index 2, where the column's content begins.  A wide character
    of one code unit and its continuation cell, target column 1: the
    result is where the wide character begins. *)
Lemma convertViewportColToCharacterIndex_spec_witness :
  HighlightManager._convertViewportColToCharacterIndex (Ex.row "foob" false) (2, 0)
  = Return (gridColumnToStringIndex (Ex.row "foob" false) 2)
  /\ gridColumnToStringIndex (Ex.row "foob" false) 2
     = contentStart (Ex.row "foob" false) 2
  /\ gridColumnToStringIndex Ex.wideOneRow 1 = contentStart Ex.wideOneRow (1 - 1).
Proof.
  assert (In4 : 0 <= 2 < BufferLine.length (Ex.row "foob" false))
    by (vm_compute; split; [discriminate | reflexivity]).
  assert (Ok : Forall cellOk (BufferLine.cells (Ex.row "foob" false))).
  { repeat constructor; vm_compute; discriminate. }
  assert (In2 : 0 <= 1 < BufferLine.length Ex.wideOneRow)
    by (vm_compute; split; [discriminate | reflexivity]).
  assert (Ok2 : Forall cellOk (BufferLine.cells Ex.wideOneRow)).
  { repeat constructor; vm_compute; discriminate. }
  split; [| split].
  - exact (proj1 (convertViewportColToCharacterIndex_spec
                    (Ex.row "foob" false) 2 0 In4 Ok)).
  - refine (proj1 (proj2 (convertViewportColToCharacterIndex_spec
                            (Ex.row "foob" false) 2 0 In4 Ok)
                         (Ex.cell "o") _) _).
    + reflexivity.
    + vm_compute. discriminate.
  - refine (proj2 (proj2 (convertViewportColToCharacterIndex_spec
                            Ex.wideOneRow 1 0 In2 Ok2)
                         Ex.continuation _) _ Ex.wideOne _ _ _).
    + reflexivity.
    + reflexivity.
    + reflexivity.
    + vm_compute. discriminate.
    + reflexivity.
Defined.

(** C7 as stated fails on continuation cells.  After a wide character of
    one code unit, target column 1 gives 0, the index of the wide
    character, while the rendered string has one code unit and the
    columns before column 1 fill it up to index 1.  After a wide
    character of two code units, target column 1 gives 1, while the wide
    character begins at index 0 and what follows it at index 2.  A target
    column beyond the row raises on a row kept as a plain array, the
    lookup [BufferLine.get]. *)
Lemma convertViewportColToCharacterIndex_on_continuation :
  HighlightManager._convertViewportColToCharacterIndex Ex.wideOneRow (1, 0)
  = Return 0
  /\ contentStart Ex.wideOneRow 1 = 1
  /\ HighlightManager._convertViewportColToCharacterIndex Ex.wideRow (1, 0)
     = Return 1
  /\ rendered (BufferLine.cells Ex.wideRow) = [55360; 56320]
  /\ contentStart Ex.wideRow 0 = 0
  /\ contentStart Ex.wideRow 1 = 2
  /\ HighlightManager._convertViewportColToCharacterIndex Ex.wideRow (2, 0)
     = TypeError.
Proof. vm_compute. repeat split. Qed.

(** ** Word detection: the length of a span *)





(** ** Termination of the word detection

    The fuel handed to the loops and to the recursion over rows is never
    used up: a call of [getWordAt] ends with a value or with a
    [TypeError]. *)

Section Fuel.

Import HighlightManager.

Lemma bind_fuel {A B : Type} (m : Outcome A) (k : A -> Outcome B) :
  m <> OutOfFuel -> (forall a, m = Return a -> k a <> OutOfFuel) ->
  bind m k <> OutOfFuel.
Proof.
  intros Hm Hk. destruct m as [a | |]; cbn [bind].
  - apply Hk. reflexivity.
  - discriminate.
  - contradiction.
Qed.

Lemma defined_fuel {A : Type} (o : option A) : defined o <> OutOfFuel.
Proof. destruct o; discriminate. Qed.

Lemma while_fuel {S : Type} (mu : S -> nat) (cond : S -> Outcome bool)
    (body : S -> Outcome S) :
  (forall s, cond s <> OutOfFuel) ->
  (forall s, body s <> OutOfFuel) ->
  (forall s, cond s = Return true -> (0 < mu s)%nat) ->
  (forall s s', cond s = Return true -> body s = Return s' -> (mu s' < mu s)%nat) ->
  forall (fuel : nat) (s : S),
    (mu s <= fuel)%nat -> while fuel cond body s <> OutOfFuel.
Proof.
  intros Hc Hb Hpos Hdec. induction fuel as [| fuel IH]; intros s Hle; cbn [while].
  - apply bind_fuel; [apply Hc |]. intros [|] C; [| discriminate].
    apply Hpos in C. lia.
  - apply bind_fuel; [apply Hc |]. intros [|] C; [| discriminate].
    apply bind_fuel; [apply Hb |]. intros s' B. apply IH.
    specialize (Hdec s s' C B). lia.
Qed.

Lemma forFrom_fuel {S : Type} (body : Z -> S -> Outcome S) :
  (forall i s, body i s <> OutOfFuel) ->
  forall (n : nat) (i : Z) (s : S), forFrom n i body s <> OutOfFuel.
Proof.
  intros Hb. induction n as [| n IH]; intros i s; cbn [forFrom].
  - discriminate.
  - apply bind_fuel; [apply Hb |]. intros s' _. apply IH.
Qed.

(** One step towards an outcome that is not [OutOfFuel]. *)
Ltac fuel_step :=
  match goal with
  | |- Return _ <> OutOfFuel => discriminate
  | |- TypeError <> OutOfFuel => discriminate
  | |- defined _ <> OutOfFuel => apply defined_fuel
  | |- bind _ _ <> OutOfFuel => apply bind_fuel; [| intros ? ?; cbv beta]
  | |- (if ?b then _ else _) <> OutOfFuel => destruct b eqn:?
  | |- match ?o with Some _ => _ | None => _ end <> OutOfFuel => destruct o eqn:?
  | |- (let '(_, _) := ?x in _) <> OutOfFuel => destruct x
  end.

Lemma isCharWordSeparator_fuel (c : option CharData) :
  _isCharWordSeparator c <> OutOfFuel.
Proof. unfold _isCharWordSeparator. repeat fuel_step. Qed.

Lemma notSpaceCode_fuel (c : option CharData) : notSpaceCode c <> OutOfFuel.
Proof. unfold notSpaceCode. repeat fuel_step. Qed.

Lemma convert_fuel (bufferLine : BufferLine.t) (coords : Coords) :
  _convertViewportColToCharacterIndex bufferLine coords <> OutOfFuel.
Proof.
  unfold _convertViewportColToCharacterIndex, forRange.
  apply forFrom_fuel. intros i s. unfold convertStep. repeat fuel_step.
Qed.

Lemma expandLeft_fuel (bufferLine : BufferLine.t) (init : Z * Z * Z * Z) :
  expandLeft bufferLine init <> OutOfFuel.
Proof.
  unfold expandLeft.
  apply (while_fuel (fun s : Z * Z * Z * Z => Z.to_nat (fst (fst (fst s))))).
  - intros [[[startCol startIndex] lw] ll]. repeat fuel_step.
    apply isCharWordSeparator_fuel.
  - intros [[[startCol startIndex] lw] ll]. repeat fuel_step.
  - intros [[[startCol startIndex] lw] ll] C. cbn [fst].
    destruct (Z.gtb_spec startCol 0); [lia | discriminate C].
  - intros [[[startCol startIndex] lw] ll] s' C B. cbn [fst].
    destruct (Z.gtb_spec startCol 0); [| discriminate C].
    repeat unbind. all: cbn [fst]. all: lia.
  - lia.
Qed.

Lemma expandRight_fuel (bufferLine : BufferLine.t) (line : JSString.t)
    (init : Z * Z * Z * Z) :
  expandRight bufferLine line init <> OutOfFuel.
Proof.
  unfold expandRight.
  apply (while_fuel
           (fun s : Z * Z * Z * Z =>
              Z.to_nat (BufferLine.length bufferLine - fst (fst (fst s))))).
  - intros [[[endCol endIndex] rw] rl]. repeat fuel_step.
    apply isCharWordSeparator_fuel.
  - intros [[[endCol endIndex] rw] rl]. repeat fuel_step.
  - intros [[[endCol endIndex] rw] rl] C. cbn [fst].
    destruct (Z.ltb_spec endCol (BufferLine.length bufferLine));
      [lia | discriminate C].
  - intros [[[endCol endIndex] rw] rl] s' C B. cbn [fst].
    destruct (Z.ltb_spec endCol (BufferLine.length bufferLine));
      [| discriminate C].
    repeat unbind. all: cbn [fst]. all: lia.
  - lia.
Qed.

Lemma expand_fuel (bufferLine : BufferLine.t) (line : JSString.t)
    (coords : Coords) (startIndex : Z) :
  expand bufferLine line coords startIndex <> OutOfFuel.
Proof.
  unfold expand. destruct (isSpace (JSString.charAt line startIndex)).
  - apply bind_fuel.
    + apply (while_fuel Z.to_nat); try discriminate; try lia.
      * intros s C. injection C as C. apply andb_true_iff in C. lia.
      * intros s s' C B. injection C as C. injection B as <-.
        apply andb_true_iff in C. lia.
    + intros startIndex' _. apply bind_fuel; [| discriminate].
      apply (while_fuel (fun e => Z.to_nat (JSString.length line - e)));
        try discriminate; try lia.
      * intros s C. injection C as C. apply andb_true_iff in C. lia.
      * intros s s' C B. injection C as C. injection B as <-.
        apply andb_true_iff in C. lia.
  - repeat fuel_step.
    all: try apply expandLeft_fuel.
    all: try apply expandRight_fuel.
Qed.

Lemma lines_get_Some (b : IBuffer) (i : Z) (bl : BufferLine.t) :
  lines_get b i = Some bl -> 0 <= i < lines_length b.
Proof.
  unfold lines_get, lines_length. intros H.
  destruct (Z.ltb_spec i 0); [discriminate |].
  assert (N : nth_error (lines b) (Z.to_nat i) <> None) by congruence.
  apply nth_error_Some in N. lia.
Qed.

Lemma getWordAt_fuel (term : ITerminal) :
  forall (fuel : nat) (coords : Coords) (allow above below : bool),
    (0 < fuel)%nat ->
    (forall bl, lines_get (buffer term) (snd coords) = Some bl ->
       (above = true -> snd coords < Z.of_nat fuel)
       /\ (below = true ->
           lines_length (buffer term) - 1 - snd coords < Z.of_nat fuel)) ->
    _getWordAt fuel term coords allow above below <> OutOfFuel.
Proof.
  induction fuel as [| fuel IH]; intros coords allow above below Hpos Hrow;
    [lia |].
  cbn [_getWordAt].
  destruct (fst coords >=? cols term); [discriminate |].
  destruct (lines_get (buffer term) (snd coords)) as [bufferLine |] eqn:Hline;
    [| discriminate].
  destruct (Hrow bufferLine eq_refl) as [Habove Hbelow].
  apply lines_get_Some in Hline.
  repeat fuel_step.
  all: try apply convert_fuel.
  all: try apply expand_fuel.
  all: try apply notSpaceCode_fuel.
  all: repeat match goal with
         | Hm : match lines_get ?b ?i with Some _ => _ | None => _ end
                = Return true |- _ =>
             let Hnb := fresh "Hnb" in
             destruct (lines_get b i) eqn:Hnb; [| discriminate Hm];
             apply lines_get_Some in Hnb; clear Hm
         end.
  all: try specialize (Habove eq_refl); try specialize (Hbelow eq_refl).
  all: apply IH; [lia |]; intros bl _; cbn [snd];
       split; intros; try discriminate; lia.
Qed.

(** The default fuel of [getWordAt] is enough on every buffer. *)
Lemma getWordAt_total (term : ITerminal) (coords : Coords) (allow : bool) :
  getWordAt term coords allow <> OutOfFuel.
Proof.
  unfold getWordAt. apply getWordAt_fuel; [lia |].
  intros bl Hbl. apply lines_get_Some in Hbl. unfold lines_length in *.
  split; intros _; lia.
Qed.


(** Outside the viewport columns and on a missing row there is no word. *)
Lemma getWordAt_rejects (fuel : nat) (term : ITerminal) (coords : Coords)
    (allow above below : bool) :
  cols term <= fst coords \/ lines_get (buffer term) (snd coords) = None ->
  _getWordAt (S fuel) term coords allow above below = Return None.
Proof.
  intros H. cbn [_getWordAt].
  destruct (Z.geb_spec (fst coords) (cols term)) as [G | G]; [reflexivity |].
  destruct H as [H | H]; [lia |]. rewrite H. reflexivity.
Qed.

End Fuel.

(** ** Word detection over rows that answer every column

    With the row lookup as a parameter: when it answers every column with
    a cell, no cell the code reads is [undefined], so a call of
    [_getWordAt] ends with a value. *)




Section Answered.

Import HighlightManager.

Variable get : BufferLine.t -> Z -> option CharData.

Hypothesis get_answers : answersEveryColumn get.











End Answered.

(** The example lookup answers every column and reads the row. *)
Lemma answering_lookup :
  answersEveryColumn Ex.answering /\ readsTheRow Ex.answering.
Proof.
  split.
  - intros bufferLine i. discriminate.
  - intros bufferLine i c Hi H. unfold Ex.answering, BufferLine.get.
    destruct (Z.ltb_spec i 0); [lia |]. rewrite H. reflexivity.
Qed.

(** At [BufferLine.get] the functions over a lookup are those of
    [HighlightManager]. *)
Lemma getWordAt_at_BufferLine_get :
  WithLookup._getWordAt BufferLine.get = HighlightManager._getWordAt
  /\ WithLookup._convertViewportColToCharacterIndex BufferLine.get
     = HighlightManager._convertViewportColToCharacterIndex.
Proof. split; reflexivity. Qed.


(** The spans found with that lookup: the wide character alone, columns 0
    and 1; the word of ab and the wide character, columns 0 to 3. *)
Lemma getWordAt_on_answering_rows :
  WithLookup.getWordAt Ex.answering Ex.ideograph (0, 0) false
  = Return (Some {| IWordPosition.start := 0; IWordPosition.length := 2 |})
  /\ WithLookup.getWordAt Ex.answering Ex.wideWord (0, 0) false
     = Return (Some {| IWordPosition.start := 0; IWordPosition.length := 4 |}).
Proof. vm_compute. split; reflexivity. Qed.


(** * Further properties of the code *)

(** ** Coordinates inside a range *)

(** Boolean tests of the code as the propositions they decide. *)
Ltac bool_to_prop :=
  repeat rewrite ?orb_true_iff, ?andb_true_iff, ?Z.gtb_lt, ?Z.ltb_lt,
    ?Z.eqb_eq, ?Z.geb_le.

(** X1: [_areCoordsInSelection(coords, start, end)] holds exactly when
    [coords] is at or after [start] and before [end] in row-major
    order. *)
Theorem areCoordsInSelection_lex (coords start end_ : Coords) :
  HighlightManager._areCoordsInSelection coords start end_ = true
  <-> lexLe start coords /\ lexLt coords end_.
Proof.
  unfold HighlightManager._areCoordsInSelection, lexLe, lexLt.
  bool_to_prop. lia.
Qed.

(** The cell (3, 1) is inside the range from (2, 1) to (5, 1). *)
Lemma areCoordsInSelection_lex_witness :
  HighlightManager._areCoordsInSelection (3, 1) (2, 1) (5, 1) = true.
Proof.
  apply (proj2 (areCoordsInSelection_lex (3, 1) (2, 1) (5, 1))).
  unfold lexLe, lexLt. simpl. lia.
Defined.

(** X2: a range cut at a point between its ends: a cell is inside the
    range from [a] to [c] exactly when it is inside the range from [a] to
    [b] or inside the range from [b] to [c], for [a] at or before [b] and
    [b] at or before [c]. *)
Theorem areCoordsInSelection_split (coords a b c : Coords) :
  lexLe a b -> lexLe b c ->
  HighlightManager._areCoordsInSelection coords a c
  = HighlightManager._areCoordsInSelection coords a b
    || HighlightManager._areCoordsInSelection coords b c.
Proof.
  intros Hab Hbc.
  apply eq_true_iff_eq. rewrite orb_true_iff.
  unfold HighlightManager._areCoordsInSelection, lexLe in *.
  bool_to_prop. lia.
Qed.

(** The range from (2, 1) to (1, 3) cut at (4, 2), for the cell (3, 2). *)
Lemma areCoordsInSelection_split_witness :
  HighlightManager._areCoordsInSelection (3, 2) (2, 1) (1, 3)
  = HighlightManager._areCoordsInSelection (3, 2) (2, 1) (4, 2)
    || HighlightManager._areCoordsInSelection (3, 2) (4, 2) (1, 3).
Proof.
  apply (areCoordsInSelection_split (3, 2) (2, 1) (4, 2) (1, 3)).
  - unfold lexLe. simpl. lia.
  - unfold lexLe. simpl. lia.
Defined.

(** ** Trimming *)

Section Trim.
Import HighlightModel.

(** [onTrim] in one piece: cleared, or both end points moved up with the
    start row kept at 0 or more. *)
Lemma onTrim_parts (amount : Z) (m : t) :
  onTrim amount m
  = if match highlightEnd m with Some e => snd e - amount <? 0 | None => false end
    then (cleared, true)
    else ({| isHighlightAllActive := isHighlightAllActive m;
             highlightStart :=
               option_map (fun s : Coords => (fst s, Z.max 0 (snd s - amount)))
                          (highlightStart m);
             highlightStartLength := highlightStartLength m;
             highlightEnd := option_map (shiftRow amount) (highlightEnd m) |},
          false).
Proof.
  unfold onTrim, shiftRow.
  destruct (highlightEnd m) as [e |]; cbn [option_map snd fst].
  - destruct (snd e - amount <? 0); [reflexivity |].
    f_equal. f_equal.
    destruct (highlightStart m) as [s |]; cbn [option_map snd fst]; [| reflexivity].
    destruct (Z.ltb_spec (snd s - amount) 0); f_equal; f_equal; lia.
  - f_equal. f_equal.
    destruct (highlightStart m) as [s |]; cbn [option_map snd fst]; [| reflexivity].
    destruct (Z.ltb_spec (snd s - amount) 0); f_equal; f_equal; lia.
Qed.

(** X3: whatever the amount and the model, no end point stored after
    [onTrim] is on a negative row. *)
Theorem onTrim_rows_nonneg (amount : Z) (m : t) :
  (forall s, highlightStart (fst (onTrim amount m)) = Some s -> 0 <= snd s)
  /\ (forall e, highlightEnd (fst (onTrim amount m)) = Some e -> 0 <= snd e).
Proof.
  rewrite onTrim_parts.
  destruct (highlightEnd m) as [e |] eqn:He.
  - destruct (Z.ltb_spec (snd e - amount) 0); cbn.
    + split; intros ? ?; discriminate.
    + split.
      * intros s Hs. destruct (highlightStart m); cbn in Hs; [| discriminate].
        injection Hs as <-. cbn. lia.
      * intros e' He'. injection He' as <-. cbn. lia.
  - cbn. split.
    + intros s Hs. destruct (highlightStart m); cbn in Hs; [| discriminate].
      injection Hs as <-. cbn. lia.
    + intros ? ?; discriminate.
Qed.

(** X4: trims add up: for [b] not negative, trimming by [a] and then by
    [b] leaves the model that one trim by [a + b] leaves, and one of the
    two trims asks for a refresh exactly when the single trim does. *)
Theorem onTrim_compose (a b : Z) (m : t) :
  0 <= b ->
  fst (onTrim b (fst (onTrim a m))) = fst (onTrim (a + b) m)
  /\ snd (onTrim a m) || snd (onTrim b (fst (onTrim a m)))
     = snd (onTrim (a + b) m).
Proof.
  intros Hb. rewrite !onTrim_parts.
  destruct m as [all [s |] len [e |]]; cbn [highlightEnd highlightStart
    isHighlightAllActive highlightStartLength option_map fst snd shiftRow].
  all: repeat match goal with
         | |- context [?x <? 0] => destruct (Z.ltb_spec x 0)
         end;
       cbn [highlightEnd highlightStart isHighlightAllActive
            highlightStartLength option_map fst snd shiftRow cleared orb];
       try lia.
  all: split; try reflexivity.
  all: repeat match goal with
         | |- context [?x <? 0] => destruct (Z.ltb_spec x 0)
         end;
       cbn [highlightEnd highlightStart isHighlightAllActive
            highlightStartLength option_map fst snd shiftRow cleared orb];
       try lia; try reflexivity.
  all: unfold shiftRow; cbn [fst snd]; rewrite <- ?Z.sub_add_distr;
       try match goal with
           | |- context [Z.max 0 (Z.max 0 (?x - ?a0) - ?b0)] =>
               replace (Z.max 0 (Z.max 0 (x - a0) - b0))
                 with (Z.max 0 (x - (a0 + b0))) by lia
           end;
       reflexivity.
Qed.
End Trim.

(** After a trim by 2 of the range from (2, 1) to (5, 5) the start is on
    row 0. *)
Lemma onTrim_rows_nonneg_witness : 0 <= snd ((2, 0) : Coords).
Proof.
  apply (proj1 (onTrim_rows_nonneg 2
                  (Ex.model false (Some (2, 1)) 0 (Some (5, 5))))
               (2, 0)).
  reflexivity.
Defined.

(** Two trims by 1 of the range from (2, 1) to (5, 5) and one trim by
    2. *)
Lemma onTrim_compose_witness :
  fst (HighlightModel.onTrim 1
         (fst (HighlightModel.onTrim 1
                 (Ex.model false (Some (2, 1)) 0 (Some (5, 5))))))
  = fst (HighlightModel.onTrim (1 + 1)
           (Ex.model false (Some (2, 1)) 0 (Some (5, 5)))).
Proof.
  apply (proj1 (onTrim_compose 1 1
                  (Ex.model false (Some (2, 1)) 0 (Some (5, 5)))
                  ltac:(lia))).
Defined.


(** ** Effective end points *)

Section Effective.
Import HighlightModel.
Variable term : ITerminal.

Lemma reversed_shift (amount : Z) (m : t) :
  areHighlightValuesReversed
    {| isHighlightAllActive := isHighlightAllActive m;
       highlightStart := option_map (shiftRow amount) (highlightStart m);
       highlightStartLength := highlightStartLength m;
       highlightEnd := option_map (shiftRow amount) (highlightEnd m) |}
  = areHighlightValuesReversed m.
Proof.
  unfold areHighlightValuesReversed, shiftRow. cbn.
  destruct (highlightStart m) as [s |], (highlightEnd m) as [e |]; cbn;
    try reflexivity.
  f_equal.
  - apply eq_true_iff_eq. rewrite !Z.gtb_lt. lia.
  - f_equal. apply eq_true_iff_eq. rewrite !Z.eqb_eq. lia.
Qed.

(** X5: with highlight-all off, a trim that leaves every stored end
    point on the buffer moves the effective start and the effective end
    up by the same number of rows and changes nothing else: normalising
    and trimming commute. *)
Theorem onTrim_final_shift (amount : Z) (m : t) :
  isHighlightAllActive m = false ->
  (forall s, highlightStart m = Some s -> amount <= snd s) ->
  (forall e, highlightEnd m = Some e -> amount <= snd e) ->
  finalHighlightStart (fst (onTrim amount m))
  = option_map (shiftRow amount) (finalHighlightStart m)
  /\ finalHighlightEnd term (fst (onTrim amount m))
     = option_map (shiftRow amount) (finalHighlightEnd term m).
Proof.
  intros Hall Hs He.
  assert (T : fst (onTrim amount m)
              = {| isHighlightAllActive := isHighlightAllActive m;
                   highlightStart := option_map (shiftRow amount) (highlightStart m);
                   highlightStartLength := highlightStartLength m;
                   highlightEnd := option_map (shiftRow amount) (highlightEnd m) |}).
  { unfold onTrim, shiftRow.
    destruct (highlightEnd m) as [e |]; cbn [option_map fst snd].
    - specialize (He e eq_refl).
      destruct (Z.ltb_spec (snd e - amount) 0); [lia |]. cbn [fst]. f_equal.
      destruct (highlightStart m) as [s |]; cbn [option_map fst snd];
        [| reflexivity].
      specialize (Hs s eq_refl).
      destruct (Z.ltb_spec (snd s - amount) 0); [lia | reflexivity].
    - cbn [fst]. f_equal.
      destruct (highlightStart m) as [s |]; cbn [option_map fst snd];
        [| reflexivity].
      specialize (Hs s eq_refl).
      destruct (Z.ltb_spec (snd s - amount) 0); [lia | reflexivity]. }
  rewrite T. unfold finalHighlightStart, finalHighlightEnd.
  rewrite reversed_shift. cbn [isHighlightAllActive highlightStart highlightEnd
                               highlightStartLength].
  rewrite Hall.
  destruct (highlightStart m) as [s |], (highlightEnd m) as [e |];
    cbn [option_map]; try (split; reflexivity).
  - destruct (areHighlightValuesReversed m); cbn [orb option_map].
    + split; [reflexivity |]. unfold shiftRow at 1 2. cbn [fst snd].
      destruct (fst s + highlightStartLength m >? cols term); cbn [option_map];
        unfold shiftRow; cbn [fst snd];
        first [reflexivity | apply f_equal, pair_equal_spec; split; lia].
    + split; [reflexivity |]. unfold shiftRow at 1 2 3. cbn [fst snd].
      replace (snd e - amount =? snd s - amount) with (snd e =? snd s)
        by (apply eq_true_iff_eq; rewrite !Z.eqb_eq; lia).
      destruct (negb (highlightStartLength m =? 0) && (snd e =? snd s));
        reflexivity.
  - split; [reflexivity |]. cbn [orb]. unfold shiftRow at 1 2. cbn [fst snd].
    destruct (fst s + highlightStartLength m >? cols term); cbn [option_map];
      unfold shiftRow; cbn [fst snd];
        first [reflexivity | apply f_equal, pair_equal_spec; split; lia].
Qed.

(** X6: with highlight-all off, at least one viewport column, the start
    set and the end unset or reversed, the effective end is exactly
    [startLength] cells after the start when the rows are laid end to
    end, and when the length runs over the row its column is inside the
    viewport. *)
Theorem finalHighlightEnd_linear (m : t) (s fe : Coords) :
  isHighlightAllActive m = false -> 0 < cols term ->
  highlightStart m = Some s ->
  highlightEnd m = None \/ areHighlightValuesReversed m = true ->
  finalHighlightEnd term m = Some fe ->
  linear (cols term) fe = linear (cols term) s + highlightStartLength m
  /\ (cols term < fst s + highlightStartLength m -> 0 <= fst fe < cols term).
Proof.
  intros Hall Hcols Hs Hcase Hfe. unfold finalHighlightEnd in Hfe.
  rewrite Hall, Hs in Hfe.
  assert (G : (match highlightEnd m with None => true | Some _ => false end
               || areHighlightValuesReversed m) = true).
  { destruct Hcase as [-> | ->]; [reflexivity | apply orb_true_r]. }
  rewrite G in Hfe. unfold linear.
  destruct (Z.gtb_spec (fst s + highlightStartLength m) (cols term)) as [W | W];
    injection Hfe as <-; cbn [fst snd].
  - rewrite Z.rem_mod_nonneg by lia.
    pose proof (Z.div_mod (fst s + highlightStartLength m) (cols term)).
    pose proof (Z.mod_pos_bound (fst s + highlightStartLength m) (cols term)).
    split; [nia | lia].
  - split; lia.
Qed.

End Effective.

(** ** Operations of the manager *)

Section Compose.
Import HighlightManager.
Variable term : ITerminal.

(** X7: after [setHighlight(col, row, length)] with the column not
    beyond the viewport columns there is a highlight exactly when the
    length is not 0, whatever the manager held before. *)
Theorem setHighlight_hasHighlight (col row length : Z) (hm : t) :
  0 < cols term -> col <= cols term ->
  hasHighlight term (setHighlight col row length hm) = negb (length =? 0).
Proof.
  intros Hcols Hcol.
  unfold hasHighlight, setHighlight, withModel,
    HighlightModel.finalHighlightStart, HighlightModel.finalHighlightEnd,
    HighlightModel.clearHighlight.
  cbn [_model HighlightModel.isHighlightAllActive HighlightModel.highlightStart
       HighlightModel.highlightEnd HighlightModel.highlightStartLength
       orb fst snd].
  destruct (Z.gtb_spec (col + length) (cols term)) as [W | W]; cbn [fst snd].
  - assert (1 <= (col + length) / cols term)
      by (apply Z.div_le_lower_bound; lia).
    destruct (Z.eqb_spec length 0); [lia |]. cbn [negb].
    apply orb_true_iff. right. apply negb_true_iff, Z.eqb_neq. lia.
  - rewrite Z.eqb_refl. cbn [negb]. rewrite orb_false_r.
    f_equal. apply eq_true_iff_eq. rewrite !Z.eqb_eq. lia.
Qed.

(** X8: after [highlightLines(start, end)] with rows inside the buffer
    the effective range runs from column 0 of the start row to the last
    column of the end row when the start row is not after the end row;
    with the rows the other way round it runs from the last column of the
    end row to column 0 of the start row. *)
Theorem highlightLines_final (start end_ : Z) (hm : t) :
  0 <= cols term ->
  0 <= start -> end_ <= lines_length (buffer term) - 1 ->
  (start <= end_ ->
   HighlightModel.finalHighlightStart (_model (highlightLines term start end_ hm))
   = Some (0, start)
   /\ HighlightModel.finalHighlightEnd term
        (_model (highlightLines term start end_ hm))
      = Some (cols term, end_))
  /\ (end_ < start ->
      HighlightModel.finalHighlightStart
        (_model (highlightLines term start end_ hm))
      = Some (cols term, end_)
      /\ HighlightModel.finalHighlightEnd term
           (_model (highlightLines term start end_ hm))
         = Some (0, start)).
Proof.
  intros Hcols Hs He.
  unfold highlightLines, withModel, HighlightModel.finalHighlightStart,
    HighlightModel.finalHighlightEnd, HighlightModel.areHighlightValuesReversed,
    HighlightModel.clearHighlight.
  cbn [_model HighlightModel.isHighlightAllActive HighlightModel.highlightStart
       HighlightModel.highlightEnd HighlightModel.highlightStartLength
       orb fst snd].
  rewrite (Z.max_l start 0) by lia.
  rewrite (Z.min_l end_) by lia.
  split; intros Hord.
  - destruct (Z.gtb_spec start end_); [lia |].
    destruct (Z.gtb_spec 0 (cols term)); [lia |].
    rewrite andb_false_r. cbn. split; reflexivity.
  - destruct (Z.gtb_spec start end_); [| lia]. cbn.
    destruct (0 >? cols term) eqn:G; [apply Z.gtb_lt in G; lia |].
    split; reflexivity.
Qed.

(** X9: on a Mac no event both forces a selection and selects columns:
    [shouldForceSelection] and [shouldColumnSelect] are never true
    together, with the option [macOptionClickForcesSelection] set or
    not. *)
Theorem shouldSelect_exclusive_on_mac (opt : bool) (event : InputEvent) :
  shouldForceSelection true opt event && shouldColumnSelect true opt event
  = false.
Proof.
  unfold shouldForceSelection, shouldColumnSelect.
  destruct (altKey event), opt; reflexivity.
Qed.
End Compose.

(** The range from (2, 3) to (5, 4) trimmed by 1. *)
Lemma onTrim_final_shift_witness :
  HighlightModel.finalHighlightStart
    (fst (HighlightModel.onTrim 1 (Ex.model false (Some (2, 3)) 0 (Some (5, 4)))))
  = option_map (shiftRow 1)
      (HighlightModel.finalHighlightStart
         (Ex.model false (Some (2, 3)) 0 (Some (5, 4))))
  /\ HighlightModel.finalHighlightEnd (Ex.terminal 10 24 [])
       (fst (HighlightModel.onTrim 1
               (Ex.model false (Some (2, 3)) 0 (Some (5, 4)))))
     = option_map (shiftRow 1)
         (HighlightModel.finalHighlightEnd (Ex.terminal 10 24 [])
            (Ex.model false (Some (2, 3)) 0 (Some (5, 4)))).
Proof.
  apply (onTrim_final_shift (Ex.terminal 10 24 []) 1
           (Ex.model false (Some (2, 3)) 0 (Some (5, 4)))).
  - reflexivity.
  - intros s H. injection H as <-. simpl. lia.
  - intros e H. injection H as <-. simpl. lia.
Defined.

(** Ten columns, start (8, 0), length 5: the effective end (3, 1) is cell
    13. *)
Lemma finalHighlightEnd_linear_witness :
  linear 10 (3, 1) = linear 10 (8, 0) + 5 /\ (10 < 8 + 5 -> 0 <= 3 < 10).
Proof.
  apply (finalHighlightEnd_linear (Ex.terminal 10 24 [])
           (Ex.model false (Some (8, 0)) 5 None) (8, 0) (3, 1)).
  - reflexivity.
  - simpl. lia.
  - reflexivity.
  - left. reflexivity.
  - reflexivity.
Defined.

(** A word of 4 columns set at column 3 of 10. *)
Lemma setHighlight_hasHighlight_witness :
  HighlightManager.hasHighlight (Ex.terminal 10 24 [])
    (HighlightManager.setHighlight 3 0 4 (Ex.manager cleared NORMAL))
  = negb (4 =? 0).
Proof.
  apply (setHighlight_hasHighlight (Ex.terminal 10 24 []) 3 0 4
           (Ex.manager cleared NORMAL)).
  - simpl. lia.
  - simpl. lia.
Defined.

(** Rows 1 to 3 of five rows of four columns. *)
Lemma highlightLines_final_witness :
  HighlightModel.finalHighlightStart
    (HighlightManager._model
       (HighlightManager.highlightLines Ex.fiveRows 1 3
          (Ex.manager cleared NORMAL))) = Some (0, 1)
  /\ HighlightModel.finalHighlightEnd Ex.fiveRows
       (HighlightManager._model
          (HighlightManager.highlightLines Ex.fiveRows 1 3
             (Ex.manager cleared NORMAL))) = Some (cols Ex.fiveRows, 3).
Proof.
  refine (proj1 (highlightLines_final Ex.fiveRows 1 3
                   (Ex.manager cleared NORMAL) _ _ _) _).
  - simpl. lia.
  - lia.
  - vm_compute. discriminate.
  - lia.
Defined.

(** ** Text of the highlight *)

Section Text.
Import HighlightManager.
Variable isMSWindows : bool.
Variable term : ITerminal.

Lemma forFrom_fold {S : Type} (body : Z -> S -> Outcome S) (f : Z -> S -> S) :
  forall (n : nat) (i : Z) (s : S),
    (forall j s', In j (rowsFrom n i) -> body j s' = Return (f j s')) ->
    forFrom n i body s
    = Return (fold_left (fun acc j => f j acc) (rowsFrom n i) s).
Proof.
  induction n as [| n IH]; intros i s Hb; cbn [forFrom rowsFrom fold_left].
  - reflexivity.
  - rewrite Hb by (left; reflexivity). cbn [bind].
    apply IH. intros j s' Hj. apply Hb. right. exact Hj.
Qed.

Lemma forFrom_ext {S : Type} (body body' : Z -> S -> Outcome S) :
  forall (n : nat) (i : Z) (s : S),
    (forall j s', In j (rowsFrom n i) -> body j s' = body' j s') ->
    forFrom n i body s = forFrom n i body' s.
Proof.
  induction n as [| n IH]; intros i s Hb; cbn [forFrom rowsFrom].
  - reflexivity.
  - rewrite Hb by (left; reflexivity).
    destruct (body' i s) as [s1 | |]; cbn [bind]; try reflexivity.
    apply IH. intros j s' Hj. apply Hb. right. exact Hj.
Qed.

Lemma rowsFrom_snoc : forall (n : nat) (i : Z),
  rowsFrom (S n) i = rowsFrom n i ++ [i + Z.of_nat n].
Proof.
  induction n as [| n IH]; intros i.
  - cbn. f_equal. lia.
  - change (rowsFrom (S (S n)) i) with (i :: rowsFrom (S n) (i + 1)).
    rewrite IH. cbn [rowsFrom app]. f_equal. f_equal. f_equal. lia.
Qed.

Lemma fold_push_map {A B : Type} (f : A -> B) :
  forall (l : list A) (acc : list B),
    fold_left (fun acc j => acc ++ [f j]) l acc = acc ++ List.map f l.
Proof.
  induction l as [| a l IH]; intros acc; cbn [fold_left List.map].
  - symmetry. apply app_nil_r.
  - rewrite IH, <- app_assoc. reflexivity.
Qed.

Lemma rowsFrom_range : forall (n : nat) (i j : Z),
  In j (rowsFrom n i) <-> i <= j < i + Z.of_nat n.
Proof.
  induction n as [| n IH]; intros i j; cbn [rowsFrom In].
  - lia.
  - rewrite IH. lia.
Qed.

Lemma unbreak_app (a b : JSString.t) : unbreak (a ++ b) = unbreak a ++ unbreak b.
Proof. unfold unbreak, JSString.replaceAll. apply map_app. Qed.

Lemma unbreak_sep : unbreak (lineSeparator isMSWindows) = lineSeparator isMSWindows.
Proof. unfold lineSeparator. destruct isMSWindows; reflexivity. Qed.

Lemma join_cons (sep a : JSString.t) (l : list JSString.t) :
  l <> [] -> JSString.join sep (a :: l) = a ++ sep ++ JSString.join sep l.
Proof. destruct l; [contradiction | reflexivity]. Qed.

Lemma appendToLast_nonempty (result : list JSString.t) (t : JSString.t) :
  result <> [] -> appendToLast result t <> [].
Proof.
  destruct result as [| a [| b result]]; [contradiction | discriminate..].
Qed.

Lemma formatLines_appendToLast :
  forall (result : list JSString.t) (t : JSString.t),
    result <> [] ->
    formatLines isMSWindows (appendToLast result t)
    = formatLines isMSWindows result ++ unbreak t.
Proof.
  unfold formatLines.
  induction result as [| a result IH]; intros t Hne; [contradiction |].
  destruct result as [| b result].
  - cbn. apply unbreak_app.
  - change (appendToLast (a :: b :: result) t)
      with (a :: appendToLast (b :: result) t).
    cbn [List.map].
    rewrite join_cons.
    2:{ intros N. apply map_eq_nil in N.
        revert N. apply appendToLast_nonempty. discriminate. }
    rewrite IH by discriminate.
    rewrite (join_cons _ (unbreak a)) by discriminate.
    cbn [List.map]. rewrite <- !app_assoc. reflexivity.
Qed.

Lemma formatLines_push : forall (result : list JSString.t) (t : JSString.t),
  result <> [] ->
  formatLines isMSWindows (result ++ [t])
  = formatLines isMSWindows result ++ lineSeparator isMSWindows ++ unbreak t.
Proof.
  unfold formatLines.
  induction result as [| a result IH]; intros t Hne; [contradiction |].
  destruct result as [| b result].
  - reflexivity.
  - cbn [app List.map]. rewrite join_cons.
    2:{ destruct result; discriminate. }
    change (unbreak b :: List.map unbreak (result ++ [t]))
      with (List.map unbreak ((b :: result) ++ [t])).
    rewrite IH by discriminate.
    rewrite (join_cons _ (unbreak a)) by discriminate.
    cbn [List.map]. rewrite <- !app_assoc. reflexivity.
Qed.

(** One row pushed onto a result that holds the first row's text. *)
Lemma pushRow_present (i : Z) (lineText : JSString.t)
    (result : list JSString.t) :
  lines_get (buffer term) i <> None -> result <> [] ->
  exists result',
    pushRow term i lineText result = Return result'
    /\ result' <> []
    /\ formatLines isMSWindows result'
       = formatLines isMSWindows result
         ++ unbreak (rowJoint isMSWindows term i ++ lineText).
Proof.
  intros Hrow Hne. unfold pushRow, rowJoint.
  destruct (lines_get (buffer term) i) as [bufferLine |]; [| contradiction].
  cbn [defined bind].
  destruct (BufferLine.isWrapped bufferLine).
  - exists (appendToLast result lineText). split; [reflexivity |].
    split; [apply appendToLast_nonempty; exact Hne |].
    rewrite formatLines_appendToLast by exact Hne. reflexivity.
  - exists (result ++ [lineText]). split; [reflexivity |].
    split; [destruct result; discriminate |].
    rewrite formatLines_push by exact Hne.
    rewrite unbreak_app, unbreak_sep. reflexivity.
Qed.

Lemma pushRow_fuel (i : Z) (lineText : JSString.t) (result : list JSString.t) :
  pushRow term i lineText result <> OutOfFuel.
Proof.
  unfold pushRow. destruct (lines_get (buffer term) i) as [bufferLine |];
    cbn [defined bind]; [| discriminate].
  destruct (BufferLine.isWrapped bufferLine); discriminate.
Qed.

Lemma pushRow_missing (i : Z) (lineText : JSString.t)
    (result : list JSString.t) :
  lines_get (buffer term) i = None ->
  pushRow term i lineText result = TypeError.
Proof. intros H. unfold pushRow. rewrite H. reflexivity. Qed.

(** The loop over the middle rows, all of them present. *)
Lemma middleRows_present (text : Z -> JSString.t) :
  forall (n : nat) (i : Z) (result : list JSString.t),
    (forall j, In j (rowsFrom n i) -> lines_get (buffer term) j <> None) ->
    result <> [] ->
    exists result',
      forFrom n i (fun j result => pushRow term j (text j) result) result
      = Return result'
      /\ result' <> []
      /\ formatLines isMSWindows result'
         = formatLines isMSWindows result
           ++ unbreak (List.concat
                         (List.map (fun j => rowJoint isMSWindows term j ++ text j)
                                   (rowsFrom n i))).
Proof.
  induction n as [| n IH]; intros i result Hrows Hne;
    cbn [forFrom rowsFrom List.map List.concat].
  - exists result. split; [reflexivity |]. split; [exact Hne |].
    cbn. symmetry. apply app_nil_r.
  - destruct (pushRow_present i (text i) result) as (r1 & E1 & N1 & F1);
      [apply Hrows; left; reflexivity | exact Hne |].
    rewrite E1. cbn [bind].
    destruct (IH (i + 1) r1) as (r2 & E2 & N2 & F2);
      [intros j Hj; apply Hrows; right; exact Hj | exact N1 |].
    exists r2. split; [exact E2 |]. split; [exact N2 |].
    rewrite F2, F1, <- app_assoc, <- unbreak_app. reflexivity.
Qed.

(** The loop over the middle rows, one of them missing. *)
Lemma middleRows_missing (text : Z -> JSString.t) :
  forall (n : nat) (i : Z) (result : list JSString.t),
    (exists j, In j (rowsFrom n i) /\ lines_get (buffer term) j = None) ->
    forFrom n i (fun j result => pushRow term j (text j) result) result
    = TypeError.
Proof.
  induction n as [| n IH]; intros i result [j [Hj Hmiss]];
    cbn [forFrom rowsFrom] in *.
  - contradiction.
  - destruct (lines_get (buffer term) i) as [bufferLine |] eqn:Hi.
    + unfold pushRow at 1. rewrite Hi. cbn [defined bind].
      destruct Hj as [<- | Hj]; [congruence |].
      destruct (BufferLine.isWrapped bufferLine); cbn [bind];
        apply IH; exists j; split; assumption.
    + rewrite pushRow_missing by exact Hi. reflexivity.
Qed.

(** X10: outside column mode, for an effective start not below the
    effective end: when every row after the first one up to the end row
    is in the buffer, [highlightText] is the text of the first row
    followed, row by row, by the line separator, left out before a
    wrapped row, and the text of the row, with every non-breaking space
    turned into a space; when one of these rows is missing the call
    raises a [TypeError].  This holds whatever the buffer renders. *)
Theorem highlightText_normal (hm : t) (s e : Coords) :
  isCOLUMN (_activeHighlightMode hm) = false ->
  HighlightModel.finalHighlightStart (_model hm) = Some s ->
  HighlightModel.finalHighlightEnd term (_model hm) = Some e ->
  snd s <= snd e ->
  ((forall i, snd s < i <= snd e -> lines_get (buffer term) i <> None) ->
   highlightText isMSWindows term hm
   = Return
       (unbreak
          (rowText term s e (snd s)
           ++ List.concat
                (List.map (fun i => rowJoint isMSWindows term i
                                    ++ rowText term s e i)
                          (rowsFrom (Z.to_nat (snd e - snd s)) (snd s + 1))))))
  /\ ((exists i, snd s < i <= snd e /\ lines_get (buffer term) i = None) ->
      highlightText isMSWindows term hm = TypeError).
Proof.
  intros Hmode Hs He Hord. unfold highlightText. rewrite Hs, He, Hmode.
  unfold forRange.
  replace (snd e - 1 - (snd s + 1) + 1) with (snd e - snd s - 1) by lia.
  set (first := translateBufferLineToString (buffer term) (snd s) true (fst s)
                  (if snd s =? snd e then Some (fst e) else None)).
  assert (Hfirst : rowText term s e (snd s) = first).
  { unfold rowText. rewrite Z.eqb_refl. reflexivity. }
  assert (Hmid : forall j, In j (rowsFrom (Z.to_nat (snd e - snd s - 1)) (snd s + 1)) ->
                 translateBufferLineToString (buffer term) j true 0 None
                 = rowText term s e j).
  { intros j Hj. apply rowsFrom_range in Hj. unfold rowText.
    destruct (Z.eqb_spec j (snd s)); [lia |].
    destruct (Z.ltb_spec j (snd e)); [reflexivity | lia]. }
  split.
  - intros Hrows.
    destruct (middleRows_present (rowText term s e)
                (Z.to_nat (snd e - snd s - 1)) (snd s + 1) [first])
      as (r1 & E1 & N1 & F1).
    { intros j Hj. apply rowsFrom_range in Hj. apply Hrows. lia. }
    { discriminate. }
    rewrite (forFrom_ext _ (fun j result => pushRow term j (rowText term s e j) result)).
    2:{ intros j s' Hj. rewrite (Hmid j Hj). reflexivity. }
    rewrite E1. cbn [bind].
    destruct (Z.eqb_spec (snd s) (snd e)) as [Q | Q]; cbn [negb bind].
    + f_equal. fold (lineSeparator isMSWindows).
      change (JSString.join (lineSeparator isMSWindows)
                (List.map (JSString.replaceAll NON_BREAKING_SPACE_CHAR 32) r1))
        with (formatLines isMSWindows r1).
      rewrite F1, Hfirst.
      replace (Z.to_nat (snd e - snd s - 1)) with O by lia.
      replace (Z.to_nat (snd e - snd s)) with O by lia.
      cbn. rewrite unbreak_app. reflexivity.
    + destruct (pushRow_present (snd e)
                  (translateBufferLineToString (buffer term) (snd e) true 0
                     (Some (fst e))) r1)
        as (r2 & E2 & N2 & F2); [apply Hrows; lia | exact N1 |].
      rewrite E2. cbn [bind]. f_equal. fold (lineSeparator isMSWindows).
      change (JSString.join (lineSeparator isMSWindows)
                (List.map (JSString.replaceAll NON_BREAKING_SPACE_CHAR 32) r2))
        with (formatLines isMSWindows r2).
      rewrite F2, F1, Hfirst.
      replace (Z.to_nat (snd e - snd s))
        with (S (Z.to_nat (snd e - snd s - 1))) by lia.
      rewrite rowsFrom_snoc, map_app, concat_app.
      replace (snd s + 1 + Z.of_nat (Z.to_nat (snd e - snd s - 1)))
        with (snd e) by lia.
      assert (Hlast : rowText term s e (snd e)
                      = translateBufferLineToString (buffer term) (snd e) true 0
                          (Some (fst e))).
      { unfold rowText. destruct (Z.eqb_spec (snd e) (snd s)); [lia |].
        rewrite Z.ltb_irrefl. reflexivity. }
      cbn [List.map List.concat]. rewrite Hlast.
      rewrite app_nil_r, !unbreak_app.
      unfold formatLines. cbn [List.map JSString.join].
      rewrite <- !app_assoc. reflexivity.
  - intros (i & Hi & Hmiss).
    destruct (Z.eq_dec i (snd e)) as [-> | Hne].
    + destruct (Z.eqb_spec (snd s) (snd e)); [lia |]. cbn [negb].
      match goal with
      | |- bind ?m _ = _ =>
          destruct m as [r1 | |] eqn:E; cbn [bind]; try reflexivity
      end.
      * rewrite pushRow_missing by exact Hmiss. reflexivity.
      * exfalso. revert E. apply forFrom_fuel. intros j r. apply pushRow_fuel.
    + rewrite (forFrom_ext _ (fun j result => pushRow term j (rowText term s e j) result)).
      2:{ intros j s' Hj. rewrite (Hmid j Hj). reflexivity. }
      rewrite middleRows_missing; [reflexivity |].
      exists i. split; [| exact Hmiss]. apply rowsFrom_range. lia.
Qed.

(** X11: in column mode with two different effective columns
    [highlightText] is one line for each row from the start row to the
    end row, each what the buffer renders for the row between the two
    columns, joined by the line separator, with every non-breaking space
    turned into a space; the rows are not looked up by [highlightText]
    itself. *)
Theorem highlightText_column (hm : t) (s e : Coords) :
  isCOLUMN (_activeHighlightMode hm) = true ->
  HighlightModel.finalHighlightStart (_model hm) = Some s ->
  HighlightModel.finalHighlightEnd term (_model hm) = Some e ->
  fst s <> fst e ->
  highlightText isMSWindows term hm
  = Return
      (formatLines isMSWindows
         (List.map (fun i => translateBufferLineToString (buffer term) i true
                               (fst s) (Some (fst e)))
                   (rowsFrom (Z.to_nat (snd e - snd s + 1)) (snd s)))).
Proof.
  intros Hmode Hs He Hcol. unfold highlightText. rewrite Hs, He, Hmode.
  destruct (Z.eqb_spec (fst s) (fst e)); [contradiction |].
  unfold forRange.
  rewrite (forFrom_fold _
             (fun i result =>
                result ++ [translateBufferLineToString (buffer term) i true
                             (fst s) (Some (fst e))]))
    by reflexivity.
  cbn [bind]. rewrite fold_push_map. reflexivity.
Qed.

(** X12: a text returned by [highlightText] holds no non-breaking space
    (code unit 160), in every mode and on every platform. *)
Theorem highlightText_no_nbsp (hm : t) (text : JSString.t) :
  highlightText isMSWindows term hm = Return text ->
  ~ In NON_BREAKING_SPACE_CHAR text.
Proof.
  assert (U : forall l, ~ In NON_BREAKING_SPACE_CHAR (unbreak l)).
  { intros l Hin. unfold unbreak, JSString.replaceAll in Hin.
    apply in_map_iff in Hin. destruct Hin as (x & Hx & _).
    destruct (Z.eqb_spec x NON_BREAKING_SPACE_CHAR); [discriminate Hx | ].
    congruence. }
  assert (S : ~ In NON_BREAKING_SPACE_CHAR (lineSeparator isMSWindows)).
  { unfold lineSeparator, NON_BREAKING_SPACE_CHAR.
    destruct isMSWindows; cbn; lia. }
  assert (F : forall result, ~ In NON_BREAKING_SPACE_CHAR (formatLines isMSWindows result)).
  { unfold formatLines. induction result as [| a result IH]; [intros [] |].
    destruct result as [| b result].
    - cbn. apply U.
    - cbn [List.map]. rewrite join_cons by discriminate.
      intros Hin. apply in_app_or in Hin. destruct Hin as [Hin | Hin];
        [exact (U a Hin) |].
      apply in_app_or in Hin. destruct Hin as [Hin | Hin];
        [exact (S Hin) | exact (IH Hin)]. }
  intros H. unfold highlightText in H.
  repeat unbind; try (intros []);
    fold (lineSeparator isMSWindows); apply (F _).
Qed.
End Text.

(** The wrapped word foobar, highlighted from (0, 0) to (2, 1): the two
    rows give one line. *)
Lemma highlightText_normal_witness :
  HighlightManager.highlightText false Ex.foobar
    (Ex.manager (Ex.model false (Some (0, 0)) 0 (Some (2, 1))) NORMAL)
  = Return (JSString.lit "foobar").
Proof.
  etransitivity.
  - apply (proj1 (highlightText_normal false Ex.foobar
                    (Ex.manager (Ex.model false (Some (0, 0)) 0 (Some (2, 1)))
                                NORMAL)
                    (0, 0) (2, 1) eq_refl eq_refl eq_refl
                    ltac:(simpl; lia))).
    intros i Hi. simpl in Hi. assert (Q : i = 1) by lia. rewrite Q.
    vm_compute. discriminate.
  - vm_compute. reflexivity.
Defined.

(** Columns 1 to 3 of the two rows of foobar: two lines. *)
Lemma highlightText_column_witness :
  HighlightManager.highlightText false Ex.foobar
    (Ex.manager (Ex.model false (Some (1, 0)) 0 (Some (3, 1))) COLUMN)
  = Return (JSString.lit "oo" ++ [10] ++ JSString.lit "r ").
Proof.
  etransitivity.
  - apply (highlightText_column false Ex.foobar
             (Ex.manager (Ex.model false (Some (1, 0)) 0 (Some (3, 1))) COLUMN)
             (1, 0) (3, 1) eq_refl eq_refl eq_refl).
    simpl. lia.
  - vm_compute. reflexivity.
Defined.

(** The text foobar holds no non-breaking space. *)
Lemma highlightText_no_nbsp_witness :
  ~ In HighlightManager.NON_BREAKING_SPACE_CHAR (JSString.lit "foobar").
Proof.
  apply (highlightText_no_nbsp false Ex.foobar
           (Ex.manager (Ex.model false (Some (0, 0)) 0 (Some (2, 1))) NORMAL)).
  vm_compute. reflexivity.
Defined.

(** ** Word detection: where a span lies *)

Section Word.
Import HighlightManager.

Lemma while_invariant {S : Type} (I : S -> Prop) (cond : S -> Outcome bool)
    (body : S -> Outcome S) :
  (forall s s', I s -> cond s = Return true -> body s = Return s' -> I s') ->
  forall (fuel : nat) (s s' : S),
    I s -> while fuel cond body s = Return s' -> I s'.
Proof.
  intros Hstep. induction fuel as [| fuel IH]; intros s s' Hs H;
    cbn [while] in H.
  - destruct (cond s) as [[|] | |]; cbn [bind] in H; try discriminate.
    injection H as <-. exact Hs.
  - destruct (cond s) as [[|] | |] eqn:C; cbn [bind] in H; try discriminate.
    + destruct (body s) as [s1 | |] eqn:B; cbn [bind] in H; try discriminate.
      apply (IH s1 s'); [| exact H]. apply (Hstep s s1 Hs C B).
    + injection H as <-. exact Hs.
Qed.

Lemma expandLeft_invariant (bufferLine : BufferLine.t)
    (startCol startIndex lw ll startCol' startIndex' lw' ll' : Z) :
  expandLeft bufferLine (startCol, startIndex, lw, ll)
  = Return (startCol', startIndex', lw', ll') ->
  startIndex' - lw' + ll' - startCol' = startIndex - lw + ll - startCol
  /\ startCol' <= startCol.
Proof.
  unfold expandLeft.
  apply (while_invariant
           (fun s : Z * Z * Z * Z =>
              let '(c, i, w, l) := s in
              i - w + l - c = startIndex - lw + ll - startCol /\ c <= startCol)).
  - intros [[[c i] w] l] [[[c1 i1] w1] l1] [I1 I2] _ B.
    repeat unbind; lia.
  - split; lia.
Qed.

Lemma expandRight_invariant (bufferLine : BufferLine.t) (line : JSString.t)
    (endCol endIndex rw rl endCol' endIndex' rw' rl' : Z) :
  expandRight bufferLine line (endCol, endIndex, rw, rl)
  = Return (endCol', endIndex', rw', rl') ->
  endIndex' + rw' - rl' - endCol' = endIndex + rw - rl - endCol
  /\ endCol <= endCol'.
Proof.
  unfold expandRight.
  apply (while_invariant
           (fun s : Z * Z * Z * Z =>
              let '(c, i, w, l) := s in
              i + w - l - c = endIndex + rw - rl - endCol /\ endCol <= c)).
  - intros [[[c i] w] l] [[[c1 i1] w1] l1] [I1 I2] _ B.
    repeat unbind; lia.
  - split; lia.
Qed.

(** The span found on the row itself: it starts at or before the query
    column and has at least one column before the cap. *)
Lemma expand_bounds (bufferLine : BufferLine.t) (line : JSString.t)
    (coords : Coords) (startIndex0 : Z) (e : Expansion) :
  expand bufferLine line coords startIndex0 = Return e ->
  startIndex e + (fst coords - startIndex0) - leftWideCharCount e
  + leftLongCharOffset e <= fst coords
  /\ 1 <= endIndex e + 1 - startIndex e + leftWideCharCount e
          + rightWideCharCount e - leftLongCharOffset e
          - rightLongCharOffset e.
Proof.
  unfold expand. intros H.
  destruct (isSpace (JSString.charAt line startIndex0)).
  - destruct (while _ _ _ startIndex0) as [si | |] eqn:L; cbn [bind] in H;
      try discriminate.
    destruct (while _ _ _ startIndex0) as [ei | |] eqn:R in H; cbn [bind] in H;
      try discriminate.
    injection H as <-. cbn.
    assert (si <= startIndex0).
    { revert L. apply (while_invariant (fun s => s <= startIndex0)); [| lia].
      intros s s' Hs _ B. injection B as <-. lia. }
    assert (startIndex0 <= ei).
    { revert R. apply (while_invariant (fun s => startIndex0 <= s)); [| lia].
      intros s s' Hs _ B. injection B as <-. lia. }
    lia.
  - repeat unbind.
    all: cbn [startIndex endIndex leftWideCharCount rightWideCharCount
              leftLongCharOffset rightLongCharOffset].
    all: repeat match goal with
           | p : (Z * Z * Z * Z)%type |- _ => destruct p as [[[? ?] ?] ?]
           end.
    all: repeat match goal with
           | E : expandLeft _ _ = Return _ |- _ =>
               apply expandLeft_invariant in E
           | E : expandRight _ _ _ = Return _ |- _ =>
               apply expandRight_invariant in E
           end.
    all: repeat unbind.
    all: try lia.
Qed.

(** A returned span comes from a query column inside the viewport on a
    row of the buffer. *)
Lemma getWordAt_query (fuel : nat) (term : ITerminal) (coords : Coords)
    (allow above below : bool) (p : IWordPosition.t) :
  _getWordAt fuel term coords allow above below = Return (Some p) ->
  0 <= fst coords < cols term
  /\ lines_get (buffer term) (snd coords) <> None.
Proof.
  destruct fuel as [| fuel]; [discriminate |]. cbn [_getWordAt].
  destruct (Z.geb_spec (fst coords) (cols term)) as [G | G]; [discriminate |].
  destruct (lines_get (buffer term) (snd coords)) as [bufferLine |];
    [| discriminate].
  intros H. split; [| discriminate]. split; [| exact G].
  destruct (Z.ltb_spec (fst coords) 0) as [N | N]; [exfalso | exact N].
  unfold _convertViewportColToCharacterIndex, forRange in H.
  replace (Z.to_nat (fst coords - 0 + 1)) with O in H by lia.
  cbn [forFrom bind] in H. unfold expand in H.
  unfold JSString.charAt in H.
  destruct (Z.ltb_spec (fst coords) 0); [| lia].
  cbn [isSpace JSString.eqb] in H.
  unfold BufferLine.get in H.
  destruct (Z.ltb_spec (fst coords) 0); [| lia].
  cbn [defined bind] in H. discriminate H.
Qed.

(** How a returned span is made: the span [(start0, length0)] of the row
    itself, which the call without continuation returns, moved left by
    [a] and made longer by [a + b], where [a] comes from the span found
    on the row above and [b] from the span found on the row below. *)
Lemma getWordAt_parts (fuel : nat) (term : ITerminal) (coords : Coords)
    (allow above below : bool) (p : IWordPosition.t) :
  _getWordAt (S fuel) term coords allow above below = Return (Some p) ->
  exists start0 length0 a b,
    _getWordAt (S fuel) term coords allow false false
    = Return (Some {| IWordPosition.start := start0;
                      IWordPosition.length := length0 |})
    /\ start0 <= fst coords
    /\ 1 <= length0 <= cols term
    /\ IWordPosition.start p = start0 - a
    /\ IWordPosition.length p = length0 + a + b
    /\ (a = 0
        \/ (above = true
            /\ exists q,
                 _getWordAt fuel term (cols term - 1, snd coords - 1)
                   false true false = Return (Some q)
                 /\ a = cols term - IWordPosition.start q))
    /\ (b = 0
        \/ (below = true
            /\ exists q,
                 _getWordAt fuel term (0, snd coords + 1) false false true
                 = Return (Some q)
                 /\ b = IWordPosition.length q)).
Proof.
  intros H.
  destruct (getWordAt_query _ _ _ _ _ _ _ H) as [Hcol _].
  cbn [_getWordAt] in H |- *.
  destruct (fst coords >=? cols term); [discriminate |].
  destruct (lines_get (buffer term) (snd coords)) as [bufferLine |];
    [| discriminate].
  destruct (_convertViewportColToCharacterIndex bufferLine coords)
    as [startIndex0 | |]; cbn [bind] in H |- *; try discriminate.
  destruct (expand bufferLine _ coords startIndex0) as [e | |] eqn:Ex;
    cbn [bind] in H |- *; try discriminate.
  apply expand_bounds in Ex. destruct Ex as [Bs Bl].
  destruct (negb allow && _); [discriminate |].
  repeat unbind.
  all: cbn [IWordPosition.start IWordPosition.length].
  all: match goal with
       | |- exists s0 l0 a b,
              Return (Some {| IWordPosition.start := ?S0;
                              IWordPosition.length := ?L0 |}) = _ /\ _ =>
           exists S0, L0
       end.
  all: match goal with
       | |- exists a b, _ /\ _ /\ _ /\ ?S - ?A = _ /\ _ + ?A + ?B = _ /\ _ =>
           exists A, B
       | |- exists a b, _ /\ _ /\ _ /\ ?S - ?A = _ /\ _ + ?A = _ /\ _ =>
           exists A, 0
       | |- exists a b, _ /\ _ /\ _ /\ _ /\ _ + IWordPosition.length ?Q = _ /\ _ =>
           exists 0, (IWordPosition.length Q)
       | |- _ => exists 0, 0
       end.
  all: split; [reflexivity |]; split; [exact Bs |]; split; [lia |].
  all: split; [lia |]; split; [lia |].
  all: split;
       first [ left; reflexivity
             | right; split; [reflexivity | eexists; split; reflexivity] ].
Qed.

(** A returned span starts at or before the query column and is at least
    one column long. *)
Lemma getWordAt_bounds (term : ITerminal) :
  forall (fuel : nat) (coords : Coords) (allow above below : bool)
         (p : IWordPosition.t),
    _getWordAt fuel term coords allow above below = Return (Some p) ->
    IWordPosition.start p <= fst coords /\ 1 <= IWordPosition.length p.
Proof.
  induction fuel as [| fuel IH]; intros coords allow above below p H;
    [discriminate |].
  destruct (getWordAt_parts _ _ _ _ _ _ _ H)
    as (s0 & l0 & a & b & _ & Hs0 & Hl0 & Hstart & Hlen & Ha & Hb).
  assert (0 <= a).
  { destruct Ha as [-> | (_ & q & Hq & ->)]; [lia |].
    apply IH in Hq. cbn [fst] in Hq. lia. }
  assert (0 <= b).
  { destruct Hb as [-> | (_ & q & Hq & ->)]; [lia |].
    apply IH in Hq. lia. }
  lia.
Qed.

(** X14: following wrapped rows only makes a span larger: when
    [_getWordAt] returns a span, the call with both continuations off
    returns a span too, which lies inside the first; without the
    continuation above the two start at the same column, without the
    continuation below they end at the same column. *)
Theorem getWordAt_extends_row_span (fuel : nat) (term : ITerminal)
    (coords : Coords) (allow above below : bool) (p : IWordPosition.t) :
  _getWordAt (S fuel) term coords allow above below = Return (Some p) ->
  exists p0,
    _getWordAt (S fuel) term coords allow false false = Return (Some p0)
    /\ IWordPosition.start p <= IWordPosition.start p0
    /\ IWordPosition.start p0 + IWordPosition.length p0
       <= IWordPosition.start p + IWordPosition.length p
    /\ (above = false -> IWordPosition.start p = IWordPosition.start p0)
    /\ (below = false ->
        IWordPosition.start p + IWordPosition.length p
        = IWordPosition.start p0 + IWordPosition.length p0).
Proof.
  intros H.
  destruct (getWordAt_parts _ _ _ _ _ _ _ H)
    as (s0 & l0 & a & b & H0 & Hs0 & Hl0 & Hstart & Hlen & Ha & Hb).
  exists {| IWordPosition.start := s0; IWordPosition.length := l0 |}.
  cbn [IWordPosition.start IWordPosition.length].
  assert (0 <= a).
  { destruct Ha as [-> | (_ & q & Hq & ->)]; [lia |].
    apply getWordAt_bounds in Hq. cbn [fst] in Hq. lia. }
  assert (0 <= b).
  { destruct Hb as [-> | (_ & q & Hq & ->)]; [lia |].
    apply getWordAt_bounds in Hq. lia. }
  split; [exact H0 |]. split; [lia |]. split; [lia |]. split.
  - intros ->. destruct Ha as [-> | [N _]]; [lia | discriminate].
  - intros ->. destruct Hb as [-> | [N _]]; [lia | discriminate].
Qed.

(** X15: [_getWordAt] returns [null] for three reasons only: the query
    column is not before the viewport columns, the row is not in the
    buffer, or white space only is not allowed. *)
Theorem getWordAt_none_reasons (fuel : nat) (term : ITerminal)
    (coords : Coords) (allow above below : bool) :
  _getWordAt fuel term coords allow above below = Return None ->
  cols term <= fst coords
  \/ lines_get (buffer term) (snd coords) = None
  \/ allow = false.
Proof.
  destruct fuel as [| fuel]; [discriminate |]. cbn [_getWordAt]. intros H.
  destruct (Z.geb_spec (fst coords) (cols term)) as [G | G]; [left; exact G |].
  destruct (lines_get (buffer term) (snd coords)) as [bufferLine |];
    [| right; left; reflexivity].
  right. right. destruct allow; [exfalso | reflexivity].
  cbn [negb andb] in H. repeat unbind; discriminate.
Qed.
End Word.

(** The span of foobar found at column 0 of row 1 reaches 4 columns to
    the left of the span ar of the row itself. *)
Lemma getWordAt_extends_row_span_witness :
  exists p0,
    HighlightManager._getWordAt 3 Ex.foobar (0, 1) false false false
    = Return (Some p0)
    /\ -4 <= IWordPosition.start p0
    /\ IWordPosition.start p0 + IWordPosition.length p0 <= -4 + 6
    /\ (true = false -> -4 = IWordPosition.start p0)
    /\ (true = false ->
        -4 + 6 = IWordPosition.start p0 + IWordPosition.length p0).
Proof.
  apply (getWordAt_extends_row_span 2 Ex.foobar (0, 1) false true true
           {| IWordPosition.start := -4; IWordPosition.length := 6 |}).
  vm_compute. reflexivity.
Defined.

(** On the blanks after ar nothing is found when white space is not
    allowed. *)
Lemma getWordAt_none_reasons_witness :
  cols Ex.foobar <= fst ((2, 1) : Coords)
  \/ lines_get (buffer Ex.foobar) (snd ((2, 1) : Coords)) = None
  \/ false = false.
Proof.
  apply (getWordAt_none_reasons 3 Ex.foobar (2, 1) false true true).
  vm_compute. reflexivity.
Defined.

(** ** Word detection and column conversion, whatever the row lookup *)

Section AnyLookup.

Import HighlightManager.

Variable get : BufferLine.t -> Z -> option CharData.

Lemma expandLeft_any_invariant (bufferLine : BufferLine.t)
    (startCol startIndex lw ll startCol' startIndex' lw' ll' : Z) :
  WithLookup.expandLeft get bufferLine (startCol, startIndex, lw, ll)
  = Return (startCol', startIndex', lw', ll') ->
  startIndex' - lw' + ll' - startCol' = startIndex - lw + ll - startCol
  /\ startCol' <= startCol.
Proof.
  unfold WithLookup.expandLeft.
  apply (while_invariant
           (fun s : Z * Z * Z * Z =>
              let '(c, i, w, l) := s in
              i - w + l - c = startIndex - lw + ll - startCol /\ c <= startCol)).
  - intros [[[c i] w] l] [[[c1 i1] w1] l1] [I1 I2] _ B.
    repeat unbind; lia.
  - split; lia.
Qed.

Lemma expandRight_any_invariant (bufferLine : BufferLine.t)
    (line : JSString.t)
    (endCol endIndex rw rl endCol' endIndex' rw' rl' : Z) :
  WithLookup.expandRight get bufferLine line (endCol, endIndex, rw, rl)
  = Return (endCol', endIndex', rw', rl') ->
  endIndex' + rw' - rl' - endCol' = endIndex + rw - rl - endCol
  /\ endCol <= endCol'.
Proof.
  unfold WithLookup.expandRight.
  apply (while_invariant
           (fun s : Z * Z * Z * Z =>
              let '(c, i, w, l) := s in
              i + w - l - c = endIndex + rw - rl - endCol /\ endCol <= c)).
  - intros [[[c i] w] l] [[[c1 i1] w1] l1] [I1 I2] _ B.
    repeat unbind; lia.
  - split; lia.
Qed.

(** The span found on the row itself: it starts at or before the query
    column and has at least one column before the cap. *)
Lemma expand_any_bounds (bufferLine : BufferLine.t) (line : JSString.t)
    (coords : Coords) (startIndex0 : Z) (e : Expansion) :
  WithLookup.expand get bufferLine line coords startIndex0 = Return e ->
  startIndex e + (fst coords - startIndex0) - leftWideCharCount e
  + leftLongCharOffset e <= fst coords
  /\ 1 <= endIndex e + 1 - startIndex e + leftWideCharCount e
          + rightWideCharCount e - leftLongCharOffset e
          - rightLongCharOffset e.
Proof.
  unfold WithLookup.expand. intros H.
  destruct (isSpace (JSString.charAt line startIndex0)).
  - destruct (while _ _ _ startIndex0) as [si | |] eqn:L; cbn [bind] in H;
      try discriminate.
    destruct (while _ _ _ startIndex0) as [ei | |] eqn:R in H; cbn [bind] in H;
      try discriminate.
    injection H as <-. cbn.
    assert (si <= startIndex0).
    { revert L. apply (while_invariant (fun s => s <= startIndex0)); [| lia].
      intros s s' Hs _ B. injection B as <-. lia. }
    assert (startIndex0 <= ei).
    { revert R. apply (while_invariant (fun s => startIndex0 <= s)); [| lia].
      intros s s' Hs _ B. injection B as <-. lia. }
    lia.
  - repeat unbind.
    all: cbn [startIndex endIndex leftWideCharCount rightWideCharCount
              leftLongCharOffset rightLongCharOffset].
    all: repeat match goal with
           | p : (Z * Z * Z * Z)%type |- _ => destruct p as [[[? ?] ?] ?]
           end.
    all: repeat match goal with
           | E : WithLookup.expandLeft _ _ _ = Return _ |- _ =>
               apply expandLeft_any_invariant in E
           | E : WithLookup.expandRight _ _ _ _ = Return _ |- _ =>
               apply expandRight_any_invariant in E
           end.
    all: repeat unbind.
    all: try lia.
Qed.

(** X13: whatever a row answers outside its columns, [_getWordAt] returns
    a span for a query column that is not negative only if the column is
    before the viewport columns and the row is in the buffer; the span
    starts at or before the query column and is at least one column
    long, with or without continuation on wrapped rows. *)
Theorem getWordAt_inside_viewport (term : ITerminal) (fuel : nat)
    (coords : Coords) (allow above below : bool) (p : IWordPosition.t) :
  0 <= fst coords ->
  WithLookup._getWordAt get fuel term coords allow above below
  = Return (Some p) ->
  fst coords < cols term
  /\ (exists bufferLine, lines_get (buffer term) (snd coords) = Some bufferLine)
  /\ IWordPosition.start p <= fst coords
  /\ 1 <= IWordPosition.length p.
Proof.
  revert coords allow above below p.
  induction fuel as [| fuel' IH]; intros coords allow above below p Hcol H;
    [discriminate |].
  cbn [WithLookup._getWordAt] in H.
  destruct (Z.geb_spec (fst coords) (cols term)) as [G | G]; [discriminate |].
  split; [exact G |].
  destruct (lines_get (buffer term) (snd coords)) as [bufferLine |];
    [| discriminate].
  split; [exists bufferLine; reflexivity |].
  destruct (WithLookup._convertViewportColToCharacterIndex get bufferLine coords)
    as [startIndex0 | |]; cbn [bind] in H; try discriminate.
  destruct (WithLookup.expand get bufferLine _ coords startIndex0)
    as [e | |] eqn:Ex; cbn [bind] in H; try discriminate.
  apply expand_any_bounds in Ex. destruct Ex as [Bs Bl].
  destruct (negb allow && _); [discriminate |].
  repeat unbind.
  all: cbn [IWordPosition.start IWordPosition.length].
  all: repeat match goal with
         | Hq : WithLookup._getWordAt _ _ _ _ _ _ _ = Return (Some _) |- _ =>
             apply IH in Hq; [cbn [fst] in Hq | cbn [fst]; lia]
         end.
  all: lia.
Qed.

(** X17: [_convertViewportColToCharacterIndex] at the edges: for a
    negative column the loop does not run and the column comes back as it
    is, whatever the row lookup; for a column inside the row the call
    returns an index, the same for every lookup that answers the columns
    of the row with their cells. *)
Theorem convert_inside_row (bufferLine : BufferLine.t) (target row : Z) :
  (target < 0 ->
   WithLookup._convertViewportColToCharacterIndex get bufferLine (target, row)
   = Return target)
  /\ (readsTheRow get ->
      0 <= target < BufferLine.length bufferLine ->
      exists index,
        WithLookup._convertViewportColToCharacterIndex get bufferLine
          (target, row) = Return index
        /\ _convertViewportColToCharacterIndex bufferLine (target, row)
           = Return index).
Proof.
  unfold WithLookup._convertViewportColToCharacterIndex,
    _convertViewportColToCharacterIndex, forRange. cbn [fst].
  split.
  - intros N. replace (Z.to_nat (target - 0 + 1)) with O by lia. reflexivity.
  - intros Hget Hin.
    assert (G : forall (n : nat) (i acc : Z),
              0 <= i -> i + Z.of_nat n <= BufferLine.length bufferLine ->
              exists index,
                forFrom n i (WithLookup.convertStep get bufferLine (target, row))
                  acc = Return index
                /\ forFrom n i (convertStep bufferLine (target, row)) acc
                   = Return index).
    { induction n as [| n IH]; intros i acc Hi Hn; cbn [forFrom].
      - eexists; split; reflexivity.
      - unfold WithLookup.convertStep at 1, convertStep at 1.
        unfold BufferLine.get, BufferLine.length in *.
        destruct (Z.ltb_spec i 0); [lia |].
        destruct (nth_error (BufferLine.cells bufferLine) (Z.to_nat i))
          as [c |] eqn:E.
        2:{ apply nth_error_None in E. lia. }
        rewrite (Hget bufferLine i c Hi E). cbn [defined bind].
        destruct (CHAR_DATA_WIDTH_INDEX c =? 0); cbn [bind];
          [apply IH; lia |].
        destruct (_ && _); cbn [bind]; apply IH; lia. }
    apply G; lia.
Qed.

End AnyLookup.

(** The word foobar found at column 3 of row 0. *)
Lemma getWordAt_inside_viewport_witness :
  0 <= fst ((3, 0) : Coords)
  /\ fst ((3, 0) : Coords) < cols Ex.foobar
  /\ (exists bufferLine,
        lines_get (buffer Ex.foobar) (snd ((3, 0) : Coords)) = Some bufferLine)
  /\ 0 <= fst ((3, 0) : Coords)
  /\ 1 <= 6.
Proof.
  split; [cbn; lia |].
  apply (getWordAt_inside_viewport Ex.answering Ex.foobar 3 (3, 0)
           false true true
           {| IWordPosition.start := 0; IWordPosition.length := 6 |}).
  - cbn. lia.
  - vm_compute. reflexivity.
Defined.

(** Columns -1 and 2 of the row foob. *)
Lemma convert_inside_row_witness :
  WithLookup._convertViewportColToCharacterIndex Ex.answering
    (Ex.row "foob" false) (-1, 0) = Return (-1)
  /\ exists index,
       WithLookup._convertViewportColToCharacterIndex Ex.answering
         (Ex.row "foob" false) (2, 0) = Return index
       /\ HighlightManager._convertViewportColToCharacterIndex
            (Ex.row "foob" false) (2, 0) = Return index.
Proof.
  split.
  - apply (proj1 (convert_inside_row Ex.answering (Ex.row "foob" false) (-1) 0)).
    lia.
  - apply (proj2 (convert_inside_row Ex.answering (Ex.row "foob" false) 2 0)).
    + intros bufferLine i c Hi H. unfold Ex.answering, BufferLine.get.
      destruct (Z.ltb_spec i 0); [lia |]. rewrite H. reflexivity.
    + vm_compute. split; [discriminate | reflexivity].
Defined.

(** ** Column to string index: plain rows *)

Section Conversion.
Import HighlightManager.

Lemma oneUnit_cellOk (cs : list CharData) :
  Forall oneUnit cs -> Forall cellOk cs.
Proof.
  apply Forall_impl. intros c [W L]. unfold cellOk.
  destruct (Z.eqb_spec (CHAR_DATA_WIDTH_INDEX c) 0); [contradiction | lia].
Qed.

Lemma scan_oneUnit (target : Z) : forall (cs : list CharData) (i running : Z),
  Forall oneUnit cs -> scanColumns target i cs running = running.
Proof.
  induction cs as [| c cs IH]; intros i running Hok; cbn [scanColumns].
  - reflexivity.
  - inversion Hok as [| c' cs' [W L] Hok']; subst. rewrite IH by assumption.
    unfold scanStep. rewrite L. cbn.
    destruct (Z.eqb_spec (CHAR_DATA_WIDTH_INDEX c) 0); [contradiction | lia].
Qed.

Lemma scan_oneUnit_prefix (bufferLine : BufferLine.t) (target : Z) (n : nat) :
  Forall oneUnit (BufferLine.cells bufferLine) ->
  scanColumns target 0 (firstn n (BufferLine.cells bufferLine)) target = target.
Proof.
  intros Hok. apply scan_oneUnit. apply Forall_forall. intros x Hx.
  rewrite Forall_forall in Hok. apply Hok.
  rewrite <- (firstn_skipn n (BufferLine.cells bufferLine)).
  apply in_or_app. left. exact Hx.
Qed.

(** X16: on a row whose cells all take part in the rendered string with
    one code unit, the string index of a column inside the row is the
    column itself. *)
Theorem convert_oneUnit_row (bufferLine : BufferLine.t) (target row : Z) :
  Forall oneUnit (BufferLine.cells bufferLine) ->
  0 <= target < BufferLine.length bufferLine ->
  _convertViewportColToCharacterIndex bufferLine (target, row) = Return target.
Proof.
  intros Hok Hin. unfold BufferLine.length in Hin.
  unfold _convertViewportColToCharacterIndex, forRange. cbn [fst].
  rewrite Z.sub_0_r.
  rewrite (loop_scan bufferLine target row); try lia.
  - cbn [Z.to_nat skipn]. rewrite scan_oneUnit_prefix by exact Hok.
    reflexivity.
  - apply oneUnit_cellOk. exact Hok.
Qed.

End Conversion.

(** Column 2 of the row foob. *)
Lemma convert_oneUnit_row_witness :
  HighlightManager._convertViewportColToCharacterIndex (Ex.row "foob" false) (2, 0)
  = Return 2.
Proof.
  apply (convert_oneUnit_row (Ex.row "foob" false) 2 0).
  - repeat constructor; vm_compute; discriminate.
  - vm_compute. split; [discriminate | reflexivity].
Defined.

(** ** Word detection on a blank row *)

Section Blank.
Import HighlightManager.

Lemma rendered_blank : forall cs : list CharData,
  Forall blankCell cs ->
  rendered cs = repeat 32 (List.length cs).
Proof.
  induction cs as [| c cs IH]; intros Hb; [reflexivity |].
  inversion Hb as [| c' cs' [W C] Hb']; subst.
  unfold rendered in *. cbn [List.filter].
  destruct (Z.eqb_spec (CHAR_DATA_WIDTH_INDEX c) 0); [contradiction |].
  cbn [negb List.map List.concat List.length repeat]. rewrite C, IH by assumption.
  reflexivity.
Qed.

Lemma translate_whole (b : IBuffer) (i : Z) (trimRight : bool)
    (bufferLine : BufferLine.t) :
  lines_get b i = Some bufferLine ->
  translateBufferLineToString b i trimRight 0 None
  = rendered (BufferLine.cells bufferLine).
Proof.
  intros H. unfold translateBufferLineToString. rewrite H.
  unfold BufferLine.length. cbn [Z.to_nat skipn Z.max].
  rewrite Z.sub_0_r, Nat2Z.id, firstn_all. reflexivity.
Qed.

Lemma trim_blank (s : JSString.t) :
  Forall (fun u => u = 32) s -> JSString.trim s = [].
Proof.
  intros H. unfold JSString.trim.
  assert (T : JSString.trimStart s = []).
  { induction H as [| u s Hu _ IH]; [reflexivity |]. subst u. exact IH. }
  rewrite T. reflexivity.
Qed.

Lemma slice_Forall (P : Z -> Prop) (s : JSString.t) (from to : Z) :
  Forall P s -> Forall P (JSString.slice s from to).
Proof.
  intros H. unfold JSString.slice. apply Forall_forall. intros x Hx.
  rewrite Forall_forall in H. apply H.
  match type of Hx with
  | In x (firstn ?n (skipn ?k s)) =>
      rewrite <- (firstn_skipn k s); apply in_or_app; right;
      rewrite <- (firstn_skipn n (skipn k s)); apply in_or_app; left; exact Hx
  end.
Qed.

Lemma while_pure {S : Type} (c : S -> bool) (f : S -> S) :
  forall (fuel : nat) (s : S),
    while fuel (fun s => Return (c s)) (fun s => Return (f s)) s <> TypeError.
Proof.
  induction fuel as [| fuel IH]; intros s; cbn [while bind].
  - destruct (c s); discriminate.
  - destruct (c s); [apply IH | discriminate].
Qed.

(** X18: on a row every cell of which holds one space, a query inside
    the viewport and inside the row finds no word when white space only
    is not allowed, whatever the continuations. *)
Theorem getWordAt_blank_row (fuel : nat) (term : ITerminal) (coords : Coords)
    (above below : bool) (bufferLine : BufferLine.t) :
  lines_get (buffer term) (snd coords) = Some bufferLine ->
  Forall blankCell (BufferLine.cells bufferLine) ->
  0 <= fst coords < cols term ->
  fst coords < BufferLine.length bufferLine ->
  _getWordAt (S fuel) term coords false above below = Return None.
Proof.
  intros Hrow Hblank Hcol Hlen. cbn [_getWordAt].
  destruct (Z.geb_spec (fst coords) (cols term)); [lia |]. rewrite Hrow.
  rewrite (translate_whole _ _ _ _ Hrow), (rendered_blank _ Hblank).
  destruct coords as [col row]. cbn [fst snd] in *.
  assert (Hone : Forall oneUnit (BufferLine.cells bufferLine)).
  { revert Hblank. apply Forall_impl. intros c [W C]. split; [exact W |].
    rewrite C. reflexivity. }
  unfold _convertViewportColToCharacterIndex, forRange. cbn [fst].
  rewrite Z.sub_0_r.
  rewrite (loop_scan bufferLine col row);
    [| lia | unfold BufferLine.length in Hlen; lia
     | apply oneUnit_cellOk; exact Hone].
  cbn [Z.to_nat skipn]. rewrite scan_oneUnit_prefix by exact Hone.
  cbn [bind].
  set (line := repeat 32 (List.length (BufferLine.cells bufferLine))).
  assert (Hline : Forall (fun u => u = 32) line).
  { apply Forall_forall. intros x Hx. apply repeat_spec in Hx. exact Hx. }
  assert (Hat : isSpace (JSString.charAt line col) = true).
  { unfold JSString.charAt. destruct (Z.ltb_spec col 0); [lia |].
    unfold line. unfold BufferLine.length in Hlen.
    rewrite nth_error_repeat by lia. reflexivity. }
  destruct (expand bufferLine line (col, row) col) as [e | |] eqn:Ex.
  - cbn [bind negb andb].
    rewrite trim_blank by (apply slice_Forall; exact Hline). reflexivity.
  - exfalso. unfold expand in Ex. rewrite Hat in Ex.
    destruct (while _ _ _ col) as [si | |] eqn:L in Ex; cbn [bind] in Ex;
      try discriminate.
    + destruct (while _ _ _ col) as [ei | |] eqn:R in Ex; cbn [bind] in Ex;
        try discriminate.
      revert R. apply while_pure.
    + revert L. apply while_pure.
  - exfalso. revert Ex. apply expand_fuel.
Qed.
End Blank.

(** Column 1 of a row of four spaces. *)
Lemma getWordAt_blank_row_witness :
  HighlightManager._getWordAt 6 Ex.fiveRows (1, 0) false true true = Return None.
Proof.
  apply (getWordAt_blank_row 5 Ex.fiveRows (1, 0) true true
           (Ex.row "    " false)).
  - reflexivity.
  - repeat constructor; vm_compute; discriminate.
  - vm_compute. split; [discriminate | reflexivity].
  - vm_compute. reflexivity.
Defined.


(** ** Selecting a word *)

Section Select.
Import HighlightManager.

Lemma while_exit {S : Type} (cond : S -> Outcome bool) (body : S -> Outcome S) :
  forall (fuel : nat) (s s' : S),
    while fuel cond body s = Return s' -> cond s' = Return false.
Proof.
  induction fuel as [| fuel IH]; intros s s' H; cbn [while] in H.
  - destruct (cond s) as [[|] | |] eqn:C; cbn [bind] in H; try discriminate.
    injection H as <-. exact C.
  - destruct (cond s) as [[|] | |] eqn:C; cbn [bind] in H; try discriminate.
    + destruct (body s) as [s1 | |]; cbn [bind] in H; try discriminate.
      apply (IH s1 s' H).
    + injection H as <-. exact C.
Qed.

Lemma selectWordAt_fuel (term : ITerminal) (coords : Coords) (allow : bool)
    (hm : t) :
  _selectWordAt term coords allow hm <> OutOfFuel.
Proof.
  unfold _selectWordAt.
  destruct (getWordAt term coords allow) as [[p |] | |] eqn:G; cbn [bind];
    try discriminate.
  - unfold getWordAt in G.
    destruct (getWordAt_query _ _ _ _ _ _ _ G) as [Hcol _].
    apply bind_fuel; [| intros [start row] _; discriminate].
    apply (while_fuel (fun s : Z * Z => Z.to_nat (- fst s))).
    + intros [start row]. discriminate.
    + intros [start row]. discriminate.
    + intros [start row] C. injection C as C. apply Z.ltb_lt in C.
      cbn [fst]. lia.
    + intros [start row] [start' row'] C B. injection C as C.
      apply Z.ltb_lt in C. injection B as <- <-. cbn [fst]. lia.
    + cbn [fst]. lia.
  - exfalso. revert G. apply getWordAt_total.
Qed.

(** X19: [_selectWordAt] ends on every buffer, with a value or a
    [TypeError].  When no word is found it changes nothing.  When a word
    is found it stores a start column inside the viewport, on the row
    where the cell number of the span's start falls, and the length of
    the span as the length anchor; a span that does not start left of
    column 0 leaves the row of [coords] alone; the stored end,
    highlight-all and the mode stay as they were. *)
Theorem selectWordAt_spec (term : ITerminal) (coords : Coords) (allow : bool)
    (hm : t) :
  ((exists r, _selectWordAt term coords allow hm = Return r)
   \/ _selectWordAt term coords allow hm = TypeError)
  /\ (forall hm' coords',
        _selectWordAt term coords allow hm = Return (hm', coords') ->
        (getWordAt term coords allow = Return None
         /\ hm' = hm /\ coords' = coords)
        \/ (exists p start,
              getWordAt term coords allow = Return (Some p)
              /\ HighlightModel.highlightStart (_model hm')
                 = Some (start, snd coords')
              /\ 0 <= start < cols term
              /\ linear (cols term) (start, snd coords')
                 = linear (cols term) (IWordPosition.start p, snd coords)
              /\ (IWordPosition.start p < 0 \/ coords' = coords)
              /\ HighlightModel.highlightStartLength (_model hm')
                 = IWordPosition.length p
              /\ HighlightModel.highlightEnd (_model hm')
                 = HighlightModel.highlightEnd (_model hm)
              /\ HighlightModel.isHighlightAllActive (_model hm')
                 = HighlightModel.isHighlightAllActive (_model hm)
              /\ _activeHighlightMode hm' = _activeHighlightMode hm
              /\ fst coords' = fst coords)).
Proof.
  split.
  { pose proof (selectWordAt_fuel term coords allow hm) as F.
    destruct (_selectWordAt term coords allow hm) as [r | |];
      [left; exists r; reflexivity | right; reflexivity | contradiction]. }
  unfold _selectWordAt.
  destruct (getWordAt term coords allow) as [[p |] | |] eqn:G; cbn [bind].
  - unfold getWordAt in G.
    destruct (getWordAt_query _ _ _ _ _ _ _ G) as [Hcol _].
    destruct (getWordAt_bounds _ _ _ _ _ _ _ G) as [Hstart _].
    intros hm' coords' H. right.
    destruct (while _ _ _ _) as [[start row] | |] eqn:W; cbn [bind] in H;
      try discriminate.
    injection H as <- <-.
    pose proof (while_exit _ _ _ _ _ W) as X. injection X as X.
    apply Z.ltb_ge in X.
    assert (I : linear (cols term) (start, row)
                = linear (cols term) (IWordPosition.start p, snd coords)
                /\ start < cols term
                /\ (0 <= IWordPosition.start p ->
                    (start, row) = (IWordPosition.start p, snd coords))).
    { revert W.
      apply (while_invariant
               (fun s : Z * Z =>
                  linear (cols term) s
                  = linear (cols term) (IWordPosition.start p, snd coords)
                  /\ fst s < cols term
                  /\ (0 <= IWordPosition.start p ->
                      s = (IWordPosition.start p, snd coords)))).
      - intros [a r] [a' r'] (I1 & I2 & I3) C B. injection C as C.
        apply Z.ltb_lt in C. injection B as <- <-.
        unfold linear in *. cbn [fst snd] in *.
        split; [lia |]. split; [lia |].
        intros P. specialize (I3 P). injection I3 as -> ->. lia.
      - cbn [fst]. split; [reflexivity |]. split; [lia |]. reflexivity. }
    destruct I as (I1 & I2 & I3).
    exists p, start. cbn [_model withModel HighlightModel.highlightStart
      HighlightModel.highlightStartLength HighlightModel.highlightEnd
      HighlightModel.isHighlightAllActive _activeHighlightMode fst snd].
    repeat split; try reflexivity; try lia; try exact I1.
    destruct (Z.lt_ge_cases (IWordPosition.start p) 0) as [N | P];
      [left; exact N | right].
    specialize (I3 P). injection I3 as -> ->.
    destruct coords; reflexivity.
  - intros hm' coords' H. injection H as <- <-.
    left. repeat split.
  - intros ? ? H. discriminate H.
  - exfalso. revert G. apply getWordAt_total.
Qed.

(** X20: word detection ends on every buffer and for every query: the
    loops of [_getWordAt] and its recursion over wrapped rows, started
    with the default flags, come to a value or to a [TypeError]. *)
Theorem getWordAt_terminates (term : ITerminal) (coords : Coords)
    (allow : bool) :
  (exists r, getWordAt term coords allow = Return r)
  \/ getWordAt term coords allow = TypeError.
Proof.
  pose proof (getWordAt_total term coords allow) as F.
  destruct (getWordAt term coords allow) as [r | |];
    [left; exists r; reflexivity | right; reflexivity | contradiction].
Qed.
End Select.

(** The word foobar selected at column 0 of row 1: the span starts 4
    columns left of the row, so the start is stored at (0, 0) with length
    6 and the row of the coordinates is lowered to 0. *)
Lemma selectWordAt_spec_witness :
  (HighlightManager.getWordAt Ex.foobar (0, 1) false = Return None
   /\ Ex.manager (Ex.model false (Some (0, 0)) 6 None) NORMAL
      = Ex.manager cleared NORMAL
   /\ ((0, 0) : Coords) = (0, 1))
  \/ (exists p start,
        HighlightManager.getWordAt Ex.foobar (0, 1) false = Return (Some p)
        /\ Some (0, 0) = Some (start, snd ((0, 0) : Coords))
        /\ 0 <= start < cols Ex.foobar
        /\ linear (cols Ex.foobar) (start, snd ((0, 0) : Coords))
           = linear (cols Ex.foobar) (IWordPosition.start p, snd ((0, 1) : Coords))
        /\ (IWordPosition.start p < 0 \/ ((0, 0) : Coords) = (0, 1))
        /\ 6 = IWordPosition.length p
        /\ None = HighlightModel.highlightEnd cleared
        /\ false = HighlightModel.isHighlightAllActive cleared
        /\ NORMAL = NORMAL
        /\ fst ((0, 0) : Coords) = fst ((0, 1) : Coords)).
Proof.
  apply (proj2 (selectWordAt_spec Ex.foobar (0, 1) false
                  (Ex.manager cleared NORMAL))
               (Ex.manager (Ex.model false (Some (0, 0)) 6 None) NORMAL)
               (0, 0)).
  vm_compute. reflexivity.
Defined.

(** ** Redraw requests *)

Section Frames.
Variable isLinux isMSWindows : bool.
Variable term : ITerminal.

(** What one [refresh] does to the frame handle and to the frames asked
    for. *)
Lemma refresh_frame (handle : Z) (isNewHighlight : bool) (s s' : Redraw.t) :
  Redraw.refresh isLinux isMSWindows term handle isNewHighlight s = Return s' ->
  Redraw.manager s' = Redraw.manager s
  /\ (Redraw.noFrame s = true ->
      Redraw._refreshAnimationFrame s' = Some handle
      /\ Redraw.requested s' = handle :: Redraw.requested s)
  /\ (Redraw.noFrame s = false ->
      Redraw._refreshAnimationFrame s' = Redraw._refreshAnimationFrame s
      /\ Redraw.requested s' = Redraw.requested s).
Proof.
  unfold Redraw.refresh. intros H.
  destruct (Redraw.noFrame s) eqn:N; repeat unbind; cbn;
    repeat split; try reflexivity; try discriminate.
Qed.

(** X21: redraw requests coalesce: from a state without a pending frame,
    two calls of [refresh] ask the browser for one frame, the first call's
    when its handle is not 0; once [_refresh] has run, the next [refresh]
    asks for a frame again. *)
Theorem refresh_coalesces (h1 h2 : Z) (n1 n2 : bool) (s s1 s2 : Redraw.t) :
  h1 <> 0 -> Redraw.noFrame s = true ->
  Redraw.refresh isLinux isMSWindows term h1 n1 s = Return s1 ->
  Redraw.refresh isLinux isMSWindows term h2 n2 s1 = Return s2 ->
  Redraw.requested s2 = h1 :: Redraw.requested s
  /\ Redraw._refreshAnimationFrame s2 = Some h1
  /\ (forall h3 n3 s3,
        Redraw.refresh isLinux isMSWindows term h3 n3 (Redraw._refresh term s2)
        = Return s3 ->
        Redraw.requested s3 = h3 :: h1 :: Redraw.requested s).
Proof.
  intros Hh N R1 R2.
  destruct (refresh_frame _ _ _ _ R1) as (_ & F1 & _).
  destruct (F1 N) as [E1 Q1].
  assert (N1 : Redraw.noFrame s1 = false).
  { unfold Redraw.noFrame. rewrite E1. apply Z.eqb_neq. exact Hh. }
  destruct (refresh_frame _ _ _ _ R2) as (_ & _ & F2).
  destruct (F2 N1) as [E2 Q2].
  split; [congruence |]. split; [congruence |].
  intros h3 n3 s3 R3.
  destruct (refresh_frame _ _ _ _ R3) as (_ & F3 & _).
  destruct (F3 eq_refl) as [_ Q3]. rewrite Q3. cbn. congruence.
Qed.

(** [refresh()] without a new highlight never raises and emits
    nothing. *)
Lemma refresh_plain (handle : Z) (s : Redraw.t) :
  exists s',
    Redraw.refresh isLinux isMSWindows term handle false s = Return s'
    /\ Redraw.manager s' = Redraw.manager s
    /\ Redraw.emitted s' = Redraw.emitted s
    /\ (handle <> 0 -> Redraw.noFrame s' = false).
Proof.
  unfold Redraw.refresh. rewrite andb_false_r.
  destruct (Redraw.noFrame s) eqn:N.
  - eexists. split; [reflexivity |]. cbn. repeat split.
    intros Hh. unfold Redraw.noFrame. cbn. apply Z.eqb_neq. exact Hh.
  - exists s. repeat split. intros _. exact N.
Qed.

(** X22: [clearHighlight], [highlightAll], [highlightLines] and
    [setHighlight] never raise and leave a frame pending when the browser
    hands out handles other than 0; [highlightAll] and [highlightLines]
    emit the terminal's highlight event, and the manager is changed as
    the operation says. *)
Theorem mutators_request_redraw (handle : Z) (s : Redraw.t) :
  handle <> 0 ->
  (exists s',
     Redraw.clearHighlight isLinux isMSWindows term handle s = Return s'
     /\ Redraw.noFrame s' = false
     /\ Redraw.manager s' = HighlightManager.clearHighlight (Redraw.manager s))
  /\ (exists s',
        Redraw.highlightAll isLinux isMSWindows term handle s = Return s'
        /\ Redraw.noFrame s' = false
        /\ Redraw.manager s' = HighlightManager.highlightAll (Redraw.manager s)
        /\ Redraw.emitted s' = Redraw.highlightEvent :: Redraw.emitted s)
  /\ (forall start end_,
      exists s',
        Redraw.highlightLines isLinux isMSWindows term handle start end_ s
        = Return s'
        /\ Redraw.noFrame s' = false
        /\ Redraw.manager s'
           = HighlightManager.highlightLines term start end_ (Redraw.manager s)
        /\ Redraw.emitted s' = Redraw.highlightEvent :: Redraw.emitted s)
  /\ (forall col row length,
      exists s',
        Redraw.setHighlight isLinux isMSWindows term handle col row length s
        = Return s'
        /\ Redraw.noFrame s' = false
        /\ Redraw.manager s'
           = HighlightManager.setHighlight col row length (Redraw.manager s)).
Proof.
  intros Hh. split; [| split; [| split]].
  - unfold Redraw.clearHighlight.
    destruct (refresh_plain handle
                (Redraw.withManager
                   (HighlightManager.clearHighlight (Redraw.manager s)) s))
      as (s' & R & M & _ & F).
    exists s'. split; [exact R |]. split; [exact (F Hh) | exact M].
  - unfold Redraw.highlightAll.
    destruct (refresh_plain handle
                (Redraw.withManager
                   (HighlightManager.highlightAll (Redraw.manager s)) s))
      as (s' & R & M & E & F).
    exists (Redraw.emit Redraw.highlightEvent s'). rewrite R. cbn [bind].
    split; [reflexivity |]. split; [exact (F Hh) |]. split; [exact M |].
    cbn. rewrite E. reflexivity.
  - intros start end_. unfold Redraw.highlightLines.
    destruct (refresh_plain handle
                (Redraw.withManager
                   (HighlightManager.highlightLines term start end_
                      (Redraw.manager s)) s))
      as (s' & R & M & E & F).
    exists (Redraw.emit Redraw.highlightEvent s'). rewrite R. cbn [bind].
    split; [reflexivity |]. split; [exact (F Hh) |]. split; [exact M |].
    cbn. rewrite E. reflexivity.
  - intros col row length. unfold Redraw.setHighlight.
    destruct (refresh_plain handle
                (Redraw.withManager
                   (HighlightManager.setHighlight col row length
                      (Redraw.manager s)) s))
      as (s' & R & M & _ & F).
    exists s'. split; [exact R |]. split; [exact (F Hh) | exact M].
Qed.

(** X23: [_onTrim] never raises and emits nothing, and it asks for a
    frame only when the trim has cleared the highlight. *)
Theorem onTrim_redraw (handle amount : Z) (s : Redraw.t) :
  exists s',
    Redraw._onTrim isLinux isMSWindows term handle amount s = Return s'
    /\ Redraw.manager s' = HighlightManager._onTrim amount (Redraw.manager s)
    /\ Redraw.emitted s' = Redraw.emitted s
    /\ (Redraw.requested s' = Redraw.requested s
        \/ HighlightManager._model (Redraw.manager s') = cleared).
Proof.
  unfold Redraw._onTrim.
  destruct (snd (HighlightModel.onTrim amount
                   (HighlightManager._model (Redraw.manager s)))) eqn:Flag.
  - destruct (refresh_plain handle
                (Redraw.withManager
                   (HighlightManager._onTrim amount (Redraw.manager s)) s))
      as (s' & R & M & E & _).
    exists s'. split; [exact R |]. split; [exact M |]. split; [exact E |].
    right. rewrite M. cbn.
    revert Flag. unfold HighlightModel.onTrim.
    destruct (match option_map _ (HighlightModel.highlightEnd _) with
              | Some e => snd e <? 0 | None => false end);
      [reflexivity | discriminate].
  - eexists. split; [reflexivity |]. cbn. repeat split.
    left. reflexivity.
Qed.
End Frames.

(** Two calls of [refresh] on a fresh manager, with handles 7 and 8: one
    frame, handle 7. *)
Lemma refresh_coalesces_witness :
  [7] = 7 :: Redraw.requested Ex.idle
  /\ Some 7 = Some 7
  /\ (forall h3 n3 s3,
        Redraw.refresh false false Ex.fiveRows h3 n3
          (Redraw._refresh Ex.fiveRows
             {| Redraw.manager := Ex.manager cleared NORMAL;
                Redraw._refreshAnimationFrame := Some 7;
                Redraw.requested := [7];
                Redraw.emitted := [] |})
        = Return s3 ->
        Redraw.requested s3 = h3 :: 7 :: Redraw.requested Ex.idle).
Proof.
  apply (refresh_coalesces false false Ex.fiveRows 7 8 false false Ex.idle
           {| Redraw.manager := Ex.manager cleared NORMAL;
              Redraw._refreshAnimationFrame := Some 7;
              Redraw.requested := [7];
              Redraw.emitted := [] |}
           {| Redraw.manager := Ex.manager cleared NORMAL;
              Redraw._refreshAnimationFrame := Some 7;
              Redraw.requested := [7];
              Redraw.emitted := [] |}).
  - lia.
  - reflexivity.
  - reflexivity.
  - reflexivity.
Defined.

(** [clearHighlight] on a fresh manager with handle 1. *)
Lemma mutators_request_redraw_witness :
  exists s',
    Redraw.clearHighlight false false Ex.fiveRows 1 Ex.idle = Return s'
    /\ Redraw.noFrame s' = false
    /\ Redraw.manager s'
       = HighlightManager.clearHighlight (Redraw.manager Ex.idle).
Proof.
  apply (proj1 (mutators_request_redraw false false Ex.fiveRows 1 Ex.idle
                  ltac:(lia))).
Defined.
